(** * Payment-Worker.js: canonical signer, callback processor, status query

  A shallow embedding of the payment gateway worker
  ([src/Payment-Worker.js]) and of the [payment_records] table of
  [src/database-schema.sql].

  - [MD5]     : the digest computed by [crypto.subtle.digest('MD5', ...)].
  - [Js]      : the JavaScript values that flow through the worker.
  - [Signer]  : [generateSignature] and [verifySignature].
  - [D1]      : the [payment_records] table behind [env.DB].
  - [Worker]  : the request handlers, in a state-and-exception monad.
  - [Reference] : the signing rule, stated on name-value pairs.
  - [Entry]   : the router, [handleCORS] and [handlePaymentReturn].
  - [Shape], [Wire] : kinds of values, and what [JSON.stringify] writes.
  - [Scenario], [Checkout] : an order, its callbacks and its creation.

  The modules that follow ([SortFacts] to [EntryFacts]) hold what is
  proved about them.
*)

From Stdlib Require Import ZArith List String Ascii Bool Lia.
From Stdlib.Strings Require Import Byte.
From Stdlib Require Import Permutation Sorted DecimalString OrderedTypeEx.
Import ListNotations.

Local Open Scope string_scope.
Local Open Scope list_scope.
Local Open Scope Z_scope.

#[local] Set Warnings "-register-all".

(* ================================================================== *)
(** * MD5 (RFC 1321), the primitive behind [crypto.subtle.digest]      *)
(* ================================================================== *)

Module MD5.

(** 32-bit words are integers reduced modulo [2^32]. *)
Definition word (x : Z) : Z := Z.land x 0xFFFFFFFF.

Definition add32 (x y : Z) : Z := word (x + y).

Definition not32 (x : Z) : Z := Z.lxor (word x) 0xFFFFFFFF.

Definition rotl (x c : Z) : Z :=
  word (Z.lor (Z.shiftl (word x) c) (Z.shiftr (word x) (32 - c))).

(** Per-round shift amounts. *)
Definition S : list Z :=
  [7; 12; 17; 22; 7; 12; 17; 22; 7; 12; 17; 22; 7; 12; 17; 22;
   5;  9; 14; 20; 5;  9; 14; 20; 5;  9; 14; 20; 5;  9; 14; 20;
   4; 11; 16; 23; 4; 11; 16; 23; 4; 11; 16; 23; 4; 11; 16; 23;
   6; 10; 15; 21; 6; 10; 15; 21; 6; 10; 15; 21; 6; 10; 15; 21].

(** [K[i] = floor (2^32 * abs (sin (i + 1)))]. *)
Definition K : list Z :=
  [0xd76aa478; 0xe8c7b756; 0x242070db; 0xc1bdceee;
   0xf57c0faf; 0x4787c62a; 0xa8304613; 0xfd469501;
   0x698098d8; 0x8b44f7af; 0xffff5bb1; 0x895cd7be;
   0x6b901122; 0xfd987193; 0xa679438e; 0x49b40821;
   0xf61e2562; 0xc040b340; 0x265e5a51; 0xe9b6c7aa;
   0xd62f105d; 0x02441453; 0xd8a1e681; 0xe7d3fbc8;
   0x21e1cde6; 0xc33707d6; 0xf4d50d87; 0x455a14ed;
   0xa9e3e905; 0xfcefa3f8; 0x676f02d9; 0x8d2a4c8a;
   0xfffa3942; 0x8771f681; 0x6d9d6122; 0xfde5380c;
   0xa4beea44; 0x4bdecfa9; 0xf6bb4b60; 0xbebfbc70;
   0x289b7ec6; 0xeaa127fa; 0xd4ef3085; 0x04881d05;
   0xd9d4d039; 0xe6db99e5; 0x1fa27cf8; 0xc4ac5665;
   0xf4292244; 0x432aff97; 0xab9423a7; 0xfc93a039;
   0x655b59c3; 0x8f0ccc92; 0xffeff47d; 0x85845dd1;
   0x6fa87e4f; 0xfe2ce6e0; 0xa3014314; 0x4e0811a1;
   0xf7537e82; 0xbd3af235; 0x2ad7d2bb; 0xeb86d391].

Record state := mkState { sa : Z; sb : Z; sc : Z; sd : Z }.

Definition init : state :=
  mkState 0x67452301 0xefcdab89 0x98badcfe 0x10325476.

(** The round function and message-word index of operation [i]. *)
Definition mix (i : Z) (b c d : Z) : Z * Z :=
  if i <? 16 then (Z.lor (Z.land b c) (Z.land (not32 b) d), i)
  else if i <? 32 then
    (Z.lor (Z.land d b) (Z.land (not32 d) c), (5 * i + 1) mod 16)
  else if i <? 48 then (Z.lxor b (Z.lxor c d), (3 * i + 5) mod 16)
  else (Z.lxor c (Z.lor b (not32 d)), (7 * i) mod 16).

Definition op (m : list Z) (st : state) (i : nat) : state :=
  let iz := Z.of_nat i in
  let '(f, g) := mix iz (sb st) (sc st) (sd st) in
  let f' := add32 (add32 (add32 f (sa st)) (nth i K 0))
                  (nth (Z.to_nat g) m 0) in
  mkState (sd st) (add32 (sb st) (rotl f' (nth i S 0))) (sb st) (sc st).

(** Little-endian decoding of a 64-byte block into sixteen words. *)
Fixpoint words (n : nat) (bs : list Z) : list Z :=
  match n with
  | O => []
  | Datatypes.S n' =>
      match bs with
      | b0 :: b1 :: b2 :: b3 :: rest =>
          (b0 + 256 * b1 + 65536 * b2 + 16777216 * b3) :: words n' rest
      | _ => []
      end
  end.

Definition block (st : state) (bs : list Z) : state :=
  let st' := fold_left (op (words 16 bs)) (seq 0 64) st in
  mkState (add32 (sa st) (sa st')) (add32 (sb st) (sb st'))
          (add32 (sc st) (sc st')) (add32 (sd st) (sd st')).

Fixpoint blocks (n : nat) (st : state) (bs : list Z) : state :=
  match n with
  | O => st
  | Datatypes.S n' => blocks n' (block st (firstn 64 bs)) (skipn 64 bs)
  end.

Fixpoint le_bytes (n : nat) (x : Z) : list Z :=
  match n with
  | O => []
  | Datatypes.S n' => (x mod 256) :: le_bytes n' (x / 256)
  end.

(** Padding: a [0x80] byte, zeros up to 56 modulo 64, then the bit
    length as a 64-bit little-endian integer. *)
Definition pad (msg : list Z) : list Z :=
  let len := Z.of_nat (List.length msg) in
  let zeros := Z.to_nat ((55 - len) mod 64) in
  msg ++ [128] ++ repeat 0 zeros ++ le_bytes 8 ((8 * len) mod 2 ^ 64).

Definition byte_of_Z (z : Z) : byte :=
  match Byte.of_N (Z.to_N (z mod 256)) with
  | Some b => b
  | None => x00
  end.

Definition Z_of_byte (b : byte) : Z := Z.of_N (Byte.to_N b).

Definition digest (data : list byte) : list byte :=
  let padded := pad (map Z_of_byte data) in
  let st := blocks (List.length padded / 64) init padded in
  map byte_of_Z
      (le_bytes 4 (sa st) ++ le_bytes 4 (sb st) ++
       le_bytes 4 (sc st) ++ le_bytes 4 (sd st)).

End MD5.

(* ================================================================== *)
(** * JavaScript values                                                *)
(* ================================================================== *)

Module Js.

(** The values a parsed JSON body, an environment variable or a
    destructured field can hold.

    Numbers are the integers: the doubles with no fraction that print
    as plain decimal digits, that is those below [10^21] in absolute
    value.  A fraction, [NaN] and the infinities are not values of the
    model.

    A string is the sequence of bytes that holds it in UTF-8, the bytes
    [TextEncoder] gives; [code_units] reads its UTF-16 code units off
    them.  A string with a lone surrogate has no such bytes and is not
    a value of the model.

    An object is the list of its own properties in property order, with
    unique names ([wf]). *)
Inductive value : Type :=
| JUndefined
| JNull
| JBoolean (b : bool)
| JNumber (n : Z)
| JString (s : string)
| JArray (elems : list value)
| JObject (props : list (string * value)).

Definition object := list (string * value).

Inductive Exn := TypeError | SyntaxError | NetworkError | D1Error.

(** Completion of an evaluation: a value, or a thrown exception. *)
Inductive Completion (A : Type) : Type :=
| Normal (a : A)
| Throw (e : Exn).
Arguments Normal {A} a.
Arguments Throw {A} e.

Definition cbind {A B} (c : Completion A) (k : A -> Completion B)
  : Completion B :=
  match c with
  | Normal a => k a
  | Throw e => Throw e
  end.

Declare Scope completion_scope.
Delimit Scope completion_scope with completion.
Notation "'let!' x ':=' c 'in' k" := (cbind c (fun x => k))
  (at level 10, x name, c at level 100, k at level 200)
  : completion_scope.
Local Open Scope completion_scope.

Fixpoint mapM {A B} (f : A -> Completion B) (l : list A)
  : Completion (list B) :=
  match l with
  | [] => Normal []
  | x :: rest =>
      let! y := f x in
      let! ys := mapM f rest in
      Normal (y :: ys)
  end.

(** [Object.keys(o)] and [o[key]] on own properties. *)
Definition keys (o : object) : list string := map fst o.

Fixpoint prop (o : object) (key : string) : value :=
  match o with
  | [] => JUndefined
  | (k, v) :: rest => if String.eqb k key then v else prop rest key
  end.

Definition wf (o : object) : Prop := NoDup (keys o).

Fixpoint has_own (o : object) (key : string) : bool :=
  match o with
  | [] => false
  | (k, _) :: rest => String.eqb k key || has_own rest key
  end.

(** [v.key]: reading a property of [null] or [undefined] throws; the
    names the worker reads are not defined on any built-in prototype,
    so every other non-object yields [undefined]. *)
Definition Get (v : value) (key : string) : Completion value :=
  match v with
  | JUndefined | JNull => Throw TypeError
  | JObject o => Normal (prop o key)
  | _ => Normal JUndefined
  end.

(** [ToBoolean]. *)
Definition truthy (v : value) : bool :=
  match v with
  | JUndefined | JNull => false
  | JBoolean b => b
  | JNumber n => negb (n =? 0)
  | JString s => negb (String.eqb s "")
  | JArray _ | JObject _ => true
  end.

(** [a || b] on values. *)
Definition or_else (a b : value) : value := if truthy a then a else b.

(** [x === y] where [y] is a primitive: objects and arrays are only
    identical to themselves, never to a literal. *)
Definition StrictEquals (x y : value) : bool :=
  match x, y with
  | JUndefined, JUndefined => true
  | JNull, JNull => true
  | JBoolean a, JBoolean b => Bool.eqb a b
  | JNumber a, JNumber b => a =? b
  | JString a, JString b => String.eqb a b
  | _, _ => false
  end.

(** [Number::toString] on the integers below [10^21] in absolute value,
    which print as plain decimal digits. *)
Definition NumberToString (n : Z) : string :=
  NilZero.string_of_int (Z.to_int n).

Definition join (sep : string) (parts : list string) : string :=
  String.concat sep parts.

(** [ToString], as applied by a template literal.  A plain object
    prints through [Object.prototype.toString]; an own [toString]
    property parsed from JSON is not callable, and then no conversion
    to a primitive exists.  An array prints through [join(',')], which
    renders [null] and [undefined] elements as empty strings. *)
Fixpoint ToString (v : value) : Completion string :=
  match v with
  | JUndefined => Normal "undefined"
  | JNull => Normal "null"
  | JBoolean b => Normal (if b then "true" else "false")
  | JNumber n => Normal (NumberToString n)
  | JString s => Normal s
  | JArray elems =>
      let! parts :=
        (fix each (l : list value) : Completion (list string) :=
           match l with
           | [] => Normal []
           | x :: rest =>
               let! s := match x with
                         | JUndefined | JNull => Normal ""
                         | _ => ToString x
                         end in
               let! ss := each rest in
               Normal (s :: ss)
           end) elems in
      Normal (join "," parts)
  | JObject o =>
      if has_own o "toString" then Throw TypeError
      else Normal "[object Object]"
  end.

(** [String.prototype.toLowerCase] and [toUpperCase] on the ASCII
    letters, every other byte left as it is.  This is what JavaScript
    does on a string of ASCII characters.  On another string JavaScript
    also maps letters outside ASCII; [toLowerCase] maps none of them to
    a hexadecimal digit, so whether the result equals a string of
    hexadecimal digits is the same here and there. *)
Definition lower_ascii (c : ascii) : ascii :=
  let n := N_of_ascii c in
  if (65 <=? n)%N && (n <=? 90)%N then ascii_of_N (n + 32) else c.

Definition upper_ascii (c : ascii) : ascii :=
  let n := N_of_ascii c in
  if (97 <=? n)%N && (n <=? 122)%N then ascii_of_N (n - 32) else c.

Fixpoint map_string (f : ascii -> ascii) (s : string) : string :=
  match s with
  | EmptyString => EmptyString
  | String c rest => String (f c) (map_string f rest)
  end.

Definition toLowerCase (s : string) : string := map_string lower_ascii s.
Definition toUpperCase (s : string) : string := map_string upper_ascii s.

(** [s.padStart(n, c)] for a one-character filler. *)
Definition padStart (n : nat) (c : string) (s : string) : string :=
  String.concat "" (repeat c (n - String.length s)) ++ s.

(** [b.toString(16)] for a byte. *)
Definition hex_digit (n : N) : string :=
  String.substring (N.to_nat n) 1 "0123456789abcdef".

Definition toString16 (b : byte) : string :=
  let n := Byte.to_N b in
  if (n <? 16)%N then hex_digit n
  else hex_digit (n / 16) ++ hex_digit (n mod 16).

(** [new TextEncoder().encode(s)]: the bytes of the string. *)
Definition encode (s : string) : list byte := list_byte_of_string s.

(** The UTF-16 code units of a string, read off the UTF-8 bytes that
    hold it: one unit for a sequence of one, two or three bytes, a
    surrogate pair for a sequence of four. *)
Fixpoint code_units (s : string) : list N :=
  match s with
  | EmptyString => []
  | String c0 rest =>
      let b0 := N_of_ascii c0 in
      if (b0 <? 128)%N then b0 :: code_units rest
      else if (b0 <? 224)%N then
        match rest with
        | String c1 rest1 =>
            ((b0 - 192) * 64 + (N_of_ascii c1 - 128))%N :: code_units rest1
        | _ => [b0]
        end
      else if (b0 <? 240)%N then
        match rest with
        | String c1 (String c2 rest2) =>
            ((b0 - 224) * 4096 + (N_of_ascii c1 - 128) * 64
             + (N_of_ascii c2 - 128))%N :: code_units rest2
        | _ => [b0]
        end
      else
        match rest with
        | String c1 (String c2 (String c3 rest3)) =>
            let point := ((b0 - 240) * 262144 + (N_of_ascii c1 - 128) * 4096
                          + (N_of_ascii c2 - 128) * 64
                          + (N_of_ascii c3 - 128))%N in
            (55296 + (point - 65536) / 1024)%N
              :: (56320 + (point - 65536) mod 1024)%N :: code_units rest3
        | _ => [b0]
        end
  end.

(** Lexicographic comparison of sequences of code units. *)
Fixpoint compare_units (a b : list N) : comparison :=
  match a, b with
  | [], [] => Eq
  | [], _ :: _ => Lt
  | _ :: _, [] => Gt
  | x :: a', y :: b' =>
      match (x ?= y)%N with
      | Eq => compare_units a' b'
      | c => c
      end
  end.

(** The order of [Array.prototype.sort()] with no comparator: strings
    compared by their UTF-16 code units.  UTF-8 and UTF-16 both write
    the same sequence of code points, so two strings that hold
    well-formed UTF-8 have the same code units only when they are the
    same string.  The comparison of bytes that follows is reached on
    such strings only when they are equal; it makes the order total on
    the byte strings that are not well-formed UTF-8, which hold no
    JavaScript string. *)
Definition before (x y : string) : bool :=
  match compare_units (code_units x) (code_units y) with
  | Lt => true
  | Gt => false
  | Eq => String.leb x y
  end.

(** A string of ASCII characters. *)
Fixpoint ascii_only (s : string) : bool :=
  match s with
  | EmptyString => true
  | String c rest => (N_of_ascii c <? 128)%N && ascii_only rest
  end.

(** [Array.prototype.sort()] on strings: ascending by code unit.  The
    result of a sort is unique on strings, whatever the algorithm. *)
Fixpoint insert (x : string) (l : list string) : list string :=
  match l with
  | [] => [x]
  | y :: rest => if before x y then x :: l else y :: insert x rest
  end.

Fixpoint sort (l : list string) : list string :=
  match l with
  | [] => []
  | x :: rest => insert x (sort rest)
  end.

End Js.

(* ================================================================== *)
(** * The signer                                                       *)
(* ================================================================== *)

Module Signer.
Import Js.
Local Open Scope completion_scope.

(** The [filter] predicate of [generateSignature]. *)
Definition signed_key (params : object) (key : string) : bool :=
  negb (String.eqb key "signature")
  && negb (StrictEquals (prop params key) JUndefined)
  && negb (StrictEquals (prop params key) (JString "")).

(** The [map] callback: [`${key}=${params[key]}`]. *)
Definition key_value (params : object) (key : string)
  : Completion string :=
  let! v := ToString (prop params key) in
  Normal (key ++ "=" ++ v)%string.

Definition hashHex (hashArray : list byte) : string :=
  join "" (map (fun b => padStart 2 "0" (toString16 b)) hashArray).

Definition generateSignature (params : object) (token : value)
  : Completion string :=
  let sortedKeys := sort (keys params) in
  let! parts := mapM (key_value params)
                     (filter (signed_key params) sortedKeys) in
  let signStr := join "&" parts in
  let! suffix := ToString token in
  let toSign := (signStr ++ suffix)%string in
  let data := encode toSign in
  let hashArray := MD5.digest data in
  Normal (toLowerCase (hashHex hashArray)).

(** [signature.toLowerCase()] is a method call: it throws unless
    [signature] is a string. *)
Definition verifySignature (params : object) (token signature : value)
  : Completion bool :=
  let! expectedSig := generateSignature params token in
  let! given := match signature with
                | JString s => Normal (toLowerCase s)
                | _ => Throw TypeError
                end in
  Normal (String.eqb expectedSig given).

End Signer.

(* ================================================================== *)
(** * The [payment_records] table behind [env.DB]                      *)
(* ================================================================== *)

Module D1.
Import Js.

(** SQL values.  Column affinities are not modelled: a column holds
    the value that was bound.  That is what SQLite stores when a [TEXT]
    column is given a string and an [INTEGER] or [REAL] column an
    integer, and [NULL] anywhere; a value of another type SQLite
    converts to the type of the column on the way in, which the model
    does not do. *)
Inductive sql := SqlNull | SqlInteger (n : Z) | SqlText (s : string).

(** [stmt.bind(v)]: D1 takes [null], numbers, strings and booleans
    (stored as 1 or 0) and throws on any other type. *)
Definition bind (v : value) : Completion sql :=
  match v with
  | JNull => Normal SqlNull
  | JBoolean b => Normal (SqlInteger (if b then 1 else 0))
  | JNumber n => Normal (SqlInteger n)
  | JString s => Normal (SqlText s)
  | JUndefined | JArray _ | JObject _ => Throw D1Error
  end.

Definition unbind (x : sql) : value :=
  match x with
  | SqlNull => JNull
  | SqlInteger n => JNumber n
  | SqlText s => JString s
  end.

(** SQL [=]: a comparison with [NULL] is never true. *)
Definition sql_eqb (x y : sql) : bool :=
  match x, y with
  | SqlInteger a, SqlInteger b => a =? b
  | SqlText a, SqlText b => String.eqb a b
  | _, _ => false
  end.

Definition is_null (x : sql) : bool :=
  match x with SqlNull => true | _ => false end.

(** A row of [payment_records] ([src/database-schema.sql]); the
    surrogate key [id] is neither read nor written by the worker. *)
Record payment_record := mkRecord {
  order_id : sql;               (* TEXT UNIQUE NOT NULL *)
  trade_id : sql;               (* TEXT *)
  amount : sql;                 (* REAL NOT NULL *)
  actual_amount : sql;          (* TEXT *)
  trade_type : sql;             (* TEXT *)
  user_id : sql;                (* TEXT *)
  status : sql;                 (* INTEGER DEFAULT 1 *)
  payment_url : sql;            (* TEXT *)
  token : sql;                  (* TEXT *)
  block_transaction_id : sql;   (* TEXT *)
  created_at : sql;             (* INTEGER NOT NULL *)
  updated_at : sql              (* INTEGER *)
}.

Definition table := list payment_record.

(** [UPDATE payment_records SET status = ?, block_transaction_id = ?,
    actual_amount = ?, updated_at = ? WHERE order_id = ?]. *)
Definition set_row (st btid actual upd : sql) (r : payment_record)
  : payment_record :=
  mkRecord (order_id r) (trade_id r) (amount r) actual (trade_type r)
           (user_id r) st (payment_url r) (token r) btid
           (created_at r) upd.

Definition update (st btid actual upd key : sql) (t : table) : table :=
  map (fun r => if sql_eqb (order_id r) key
                then set_row st btid actual upd r else r) t.

(** [INSERT INTO payment_records (...) VALUES (...)]: fails on a
    [NOT NULL] or [UNIQUE] violation. *)
Definition insert (r : payment_record) (t : table) : Completion table :=
  if is_null (order_id r) || is_null (amount r) || is_null (created_at r)
  then Throw D1Error
  else if existsb (fun r' => sql_eqb (order_id r') (order_id r)) t
  then Throw D1Error
  else Normal (t ++ [r]).

(** [SELECT * FROM payment_records WHERE trade_id = ?], [.first()]. *)
Definition row_object (r : payment_record) : value :=
  JObject [("order_id", unbind (order_id r));
           ("trade_id", unbind (trade_id r));
           ("amount", unbind (amount r));
           ("actual_amount", unbind (actual_amount r));
           ("trade_type", unbind (trade_type r));
           ("user_id", unbind (user_id r));
           ("status", unbind (status r));
           ("payment_url", unbind (payment_url r));
           ("token", unbind (token r));
           ("block_transaction_id", unbind (block_transaction_id r));
           ("created_at", unbind (created_at r));
           ("updated_at", unbind (updated_at r))].

Definition first (key : sql) (t : table) : value :=
  match find (fun r => sql_eqb (trade_id r) key) t with
  | Some r => row_object r
  | None => JNull
  end.

End D1.

(* ================================================================== *)
(** * The request handlers                                             *)
(* ================================================================== *)

Module Worker.
Import Js Signer.

(** [env]: the D1 binding (present or not) and the four variables. *)
Record Env := mkEnv {
  DB : bool;
  BEPUSDT_API_URL : value;
  BEPUSDT_API_TOKEN : value;
  MANAGER_NOTIFY_URL : value;
  REDIRECT_BASE_URL : value
}.

(** What a handler reads of the request: the origin of its URL and
    the outcome of [request.json()]. *)
Record Request := mkRequest {
  origin : string;
  json : Completion value
}.

(** A response body: a plain string, [JSON.stringify] of a value, or
    the envelope [{success: false, error: error.message}] of a caught
    exception. *)
Inductive Body :=
| Text (s : string)
| Json (v : value)
| Failure (e : Exn).

Record Response := mkResponse {
  body : Body;
  status : Z;
  headers : list (string * string)
}.

(** What the outside answers while one request is handled: the clock
    read by [Date.now()], whether the D1 statement fails when it runs,
    and the outcome of [fetch] and of [response.json()]. *)
Record Outside := mkOutside {
  now : Z;
  d1_fails : bool;
  fetch_reply : Completion (Completion value)
}.

Inductive statement :=
| Insert (r : D1.payment_record)
| Update (st btid actual upd key : D1.sql)
| Select (key : D1.sql).

(** Observable operations, in the order they happen. *)
Inductive Event :=
| ConsoleLog (label : string) (arg : value)
| ConsoleError (label : string) (e : option Exn)
| Fetch (url payload : value)
| Sql (s : statement).

Record World := mkWorld {
  records : D1.table;
  trace : list Event
}.

(** State and exceptions. *)
Definition M (A : Type) : Type := World -> Completion A * World.

Definition ret {A} (a : A) : M A := fun w => (Normal a, w).

Definition throw {A} (e : Exn) : M A := fun w => (Throw e, w).

Definition bind {A B} (m : M A) (k : A -> M B) : M B :=
  fun w => match m w with
           | (Normal a, w') => k a w'
           | (Throw e, w') => (Throw e, w')
           end.

Definition try_catch {A} (m : M A) (handler : Exn -> M A) : M A :=
  fun w => match m w with
           | (Normal a, w') => (Normal a, w')
           | (Throw e, w') => handler e w'
           end.

Definition lift {A} (c : Completion A) : M A := fun w => (c, w).

Definition emit (e : Event) : M unit :=
  fun w => (Normal tt, mkWorld (records w) (trace w ++ [e])).

Declare Scope worker_scope.
Delimit Scope worker_scope with worker.
Notation "x <- m ;; k" := (bind m (fun x => k))
  (at level 100, m at next level, right associativity) : worker_scope.
Notation "m ;; k" := (bind m (fun _ => k))
  (at level 100, right associativity) : worker_scope.
Local Open Scope worker_scope.

Definition console_log (label : string) (arg : value) : M unit :=
  emit (ConsoleLog label arg).
Definition console_error (label : string) (e : option Exn) : M unit :=
  emit (ConsoleError label e).

(** [await fetch(url, {method: 'POST', body: JSON.stringify(payload)})]:
    the result is what [response.json()] will give.  The event holds the
    object handed to [JSON.stringify], not the text written from it;
    [Wire.stringified] is the value that text holds. *)
Definition fetch (out : Outside) (url payload : value)
  : M (Completion value) :=
  emit (Fetch url payload) ;; lift (fetch_reply out).

(** [env.DB.prepare(...)]: a [TypeError] when the binding is absent. *)
Definition prepare (env : Env) : M unit :=
  if DB env then ret tt else throw TypeError.

(** [.run()] of a writing statement. *)
Definition run (out : Outside) (s : statement)
           (f : D1.table -> Completion D1.table) : M unit :=
  emit (Sql s) ;;
  if d1_fails out then throw D1Error
  else fun w => match f (records w) with
                | Normal t => (Normal tt, mkWorld t (trace w))
                | Throw e => (Throw e, w)
                end.

Definition corsHeaders : list (string * string) :=
  [("Access-Control-Allow-Origin", "*");
   ("Content-Type", "application/json; charset=utf-8")].

(* ---------------------------------------------------------------- *)
(** ** Database operations                                           *)

Definition savePaymentRecord (env : Env) (out : Outside)
           (record : object) : M unit :=
  try_catch
    (prepare env ;;
     order_id <- lift (D1.bind (prop record "order_id")) ;;
     trade_id <- lift (D1.bind (prop record "trade_id")) ;;
     amount <- lift (D1.bind (prop record "amount")) ;;
     actual_amount <- lift (D1.bind (prop record "actual_amount")) ;;
     trade_type <- lift (D1.bind (prop record "trade_type")) ;;
     user_id <- lift (D1.bind (prop record "user_id")) ;;
     status <- lift (D1.bind (prop record "status")) ;;
     payment_url <- lift (D1.bind (prop record "payment_url")) ;;
     token <- lift (D1.bind (prop record "token")) ;;
     created_at <- lift (D1.bind (prop record "created_at")) ;;
     let r := D1.mkRecord order_id trade_id amount actual_amount
                          trade_type user_id status payment_url token
                          D1.SqlNull created_at D1.SqlNull in
     run out (Insert r) (D1.insert r))
    (fun e => console_error "保存支付记录失败:" (Some e)).

Definition updatePaymentRecord (env : Env) (out : Outside)
           (orderId : value) (updates : object) : M unit :=
  try_catch
    (prepare env ;;
     st <- lift (D1.bind (prop updates "status")) ;;
     btid <- lift (D1.bind (prop updates "block_transaction_id")) ;;
     actual <- lift (D1.bind (prop updates "actual_amount")) ;;
     upd <- lift (D1.bind (prop updates "updated_at")) ;;
     key <- lift (D1.bind orderId) ;;
     run out (Update st btid actual upd key)
         (fun t => Normal (D1.update st btid actual upd key t)))
    (fun e => console_error "更新支付记录失败:" (Some e)).

Definition getPaymentRecordByTradeId (env : Env) (out : Outside)
           (tradeId : value) : M value :=
  try_catch
    (prepare env ;;
     key <- lift (D1.bind tradeId) ;;
     emit (Sql (Select key)) ;;
     if d1_fails out then throw D1Error
     else fun w => (Normal (D1.first key (records w)), w))
    (fun e => ret JNull).

(* ---------------------------------------------------------------- *)
(** ** [handlePaymentNotify]                                         *)

(** The object literal [verifyParams] handed to [verifySignature]. *)
Definition verifyParams (trade_id order_id amount actual_amount token
                         block_transaction_id status : value) : object :=
  [("trade_id", trade_id); ("order_id", order_id); ("amount", amount);
   ("actual_amount", actual_amount); ("token", token);
   ("block_transaction_id", block_transaction_id); ("status", status)].

Definition handlePaymentNotify (request : Request) (env : Env)
           (out : Outside) : M Response :=
  try_catch
    (body <- lift (json request) ;;
     console_log "收到支付回调:" body ;;
     trade_id <- lift (Get body "trade_id") ;;
     order_id <- lift (Get body "order_id") ;;
     amount <- lift (Get body "amount") ;;
     actual_amount <- lift (Get body "actual_amount") ;;
     token <- lift (Get body "token") ;;
     block_transaction_id <- lift (Get body "block_transaction_id") ;;
     signature <- lift (Get body "signature") ;;
     status <- lift (Get body "status") ;;
     let apiToken := BEPUSDT_API_TOKEN env in
     let params := verifyParams trade_id order_id amount actual_amount
                                token block_transaction_id status in
     isValid <- lift (verifySignature params apiToken signature) ;;
     if negb isValid then
       console_error "签名验证失败" None ;;
       ret (mkResponse (Text "签名错误") 400 [])
     else
       updatePaymentRecord env out order_id
         [("status", status);
          ("block_transaction_id",
           or_else block_transaction_id (JString ""));
          ("actual_amount", actual_amount);
          ("updated_at", JNumber (now out))] ;;
       (if StrictEquals status (JNumber 2) then
          let managerNotifyUrl := MANAGER_NOTIFY_URL env in
          if truthy managerNotifyUrl then
            try_catch
              (fetch out managerNotifyUrl
                 (JObject
                    [("order_id", order_id); ("trade_id", trade_id);
                     ("amount", amount);
                     ("actual_amount", actual_amount);
                     ("status", status);
                     ("block_transaction_id", block_transaction_id)]) ;;
               ret tt)
              (fun e => console_error "通知管理端失败:" (Some e))
          else ret tt
        else ret tt) ;;
       ret (mkResponse (Text "ok") 200 []))
    (fun error =>
       console_error "处理支付回调错误:" (Some error) ;;
       ret (mkResponse (Text "error") 500 [])).

(* ---------------------------------------------------------------- *)
(** ** [handleQueryStatus]                                           *)

Definition handleQueryStatus (tradeId : string) (env : Env)
           (out : Outside) : M Response :=
  try_catch
    (record <- getPaymentRecordByTradeId env out (JString tradeId) ;;
     if negb (truthy record) then
       ret (mkResponse
              (Json (JObject [("success", JBoolean false);
                              ("error", JString "订单不存在")]))
              404 corsHeaders)
     else
       order_id <- lift (Get record "order_id") ;;
       trade_id <- lift (Get record "trade_id") ;;
       status <- lift (Get record "status") ;;
       amount <- lift (Get record "amount") ;;
       actual_amount <- lift (Get record "actual_amount") ;;
       payment_url <- lift (Get record "payment_url") ;;
       ret (mkResponse
              (Json (JObject
                       [("success", JBoolean true);
                        ("data",
                         JObject [("order_id", order_id);
                                  ("trade_id", trade_id);
                                  ("status", status);
                                  ("amount", amount);
                                  ("actual_amount", actual_amount);
                                  ("payment_url", payment_url)])]))
              200 corsHeaders))
    (fun error => ret (mkResponse (Failure error) 500 corsHeaders)).

(* ---------------------------------------------------------------- *)
(** ** [handleCreatePayment]                                         *)

Section Create.

(** [parseFloat] yields a double that need not be an integer; the
    handler only passes its result on, so it is a parameter here. *)
Variable parseFloat : value -> Completion value.

Definition failure (message : value) (code : Z) : Response :=
  mkResponse (Json (JObject [("success", JBoolean false);
                             ("error", message)]))
             code corsHeaders.

Definition handleCreatePayment (request : Request) (env : Env)
           (out : Outside) : M Response :=
  try_catch
    (body <- lift (json request) ;;
     order_id <- lift (Get body "order_id") ;;
     amount <- lift (Get body "amount") ;;
     trade_type <- lift (Get body "trade_type") ;;
     user_id <- lift (Get body "user_id") ;;
     if negb (truthy order_id) || negb (truthy amount) then
       ret (failure (JString "缺少必要参数") 400)
     else
       let apiUrl := BEPUSDT_API_URL env in
       let apiToken := BEPUSDT_API_TOKEN env in
       if negb (truthy apiUrl) || negb (truthy apiToken) then
         ret (failure (JString "支付通道未配置") 500)
       else
         let notifyUrl := (origin request ++ "/api/pay/notify")%string in
         let redirectUrl :=
           or_else (REDIRECT_BASE_URL env) (JString (origin request)) in
         parsed <- lift (parseFloat amount) ;;
         redirect_s <- lift (ToString redirectUrl) ;;
         order_s <- lift (ToString order_id) ;;
         let payParams :=
           [("order_id", order_id);
            ("amount", parsed);
            ("notify_url", JString notifyUrl);
            ("redirect_url",
             JString (redirect_s ++ "?order_id=" ++ order_s)%string);
            ("trade_type", or_else trade_type (JString "usdt.trc20"))] in
         signature <- lift (generateSignature payParams apiToken) ;;
         let payParams := payParams ++ [("signature", JString signature)] in
         api_s <- lift (ToString apiUrl) ;;
         response <- fetch out
           (JString (api_s ++ "/api/v1/order/create-transaction")%string)
           (JObject payParams) ;;
         result <- lift response ;;
         status_code <- lift (Get result "status_code") ;;
         if StrictEquals status_code (JNumber 200) then
           data <- lift (Get result "data") ;;
           r_trade_id <- lift (Get data "trade_id") ;;
           r_actual_amount <- lift (Get data "actual_amount") ;;
           r_payment_url <- lift (Get data "payment_url") ;;
           r_token <- lift (Get data "token") ;;
           savePaymentRecord env out
             [("order_id", order_id);
              ("trade_id", r_trade_id);
              ("amount", amount);
              ("actual_amount", r_actual_amount);
              ("trade_type", or_else trade_type (JString "usdt.trc20"));
              ("user_id", or_else user_id (JString ""));
              ("status", JNumber 1);
              ("payment_url", r_payment_url);
              ("token", r_token);
              ("created_at", JNumber (now out))] ;;
           r_order_id <- lift (Get data "order_id") ;;
           r_amount <- lift (Get data "amount") ;;
           r_expiration_time <- lift (Get data "expiration_time") ;;
           ret (mkResponse
                  (Json (JObject
                           [("success", JBoolean true);
                            ("data",
                             JObject
                               [("trade_id", r_trade_id);
                                ("order_id", r_order_id);
                                ("amount", r_amount);
                                ("actual_amount", r_actual_amount);
                                ("token", r_token);
                                ("payment_url", r_payment_url);
                                ("expiration_time", r_expiration_time)])]))
                  200 corsHeaders)
         else
           message <- lift (Get result "message") ;;
           ret (failure
                  (or_else message (JString "创建支付订单失败")) 400))
    (fun error =>
       console_error "创建支付订单错误:" (Some error) ;;
       ret (mkResponse (Failure error) 500 corsHeaders)).

End Create.

(* ---------------------------------------------------------------- *)
(** ** Observations on a run                                         *)


(** The object handed to [verifySignature] for a given body: the
    destructuring of lines 228-237 followed by the literal of line 241. *)
Definition verifiedParams (body : value) : Completion object :=
  (let! trade_id := Get body "trade_id" in
   let! order_id := Get body "order_id" in
   let! amount := Get body "amount" in
   let! actual_amount := Get body "actual_amount" in
   let! token := Get body "token" in
   let! block_transaction_id := Get body "block_transaction_id" in
   let! signature := Get body "signature" in
   let! status := Get body "status" in
   Normal (verifyParams trade_id order_id amount actual_amount token
                        block_transaction_id status))%completion.

(** The outcome of the verification step of [handlePaymentNotify]
    (lines 224-243): [isValid], or the exception thrown before it is
    known. *)
Definition verification (request : Request) (env : Env)
  : Completion bool :=
  (let! body := json request in
   let! params := verifiedParams body in
   let! signature := Get body "signature" in
   verifySignature params (BEPUSDT_API_TOKEN env) signature)%completion.

(** The three responses of [handlePaymentNotify] and the "unknown
    order" response of [handleQueryStatus]. *)
Definition rejected : Response := mkResponse (Text "签名错误") 400 [].
Definition ack : Response := mkResponse (Text "ok") 200 [].
Definition internal_error : Response := mkResponse (Text "error") 500 [].
Definition not_found : Response :=
  mkResponse (Json (JObject [("success", JBoolean false);
                             ("error", JString "订单不存在")]))
             404 corsHeaders.

(** The [updates] literal of lines 250-255. *)
Definition callback_updates (o : object) (out : Outside) : object :=
  [("status", prop o "status");
   ("block_transaction_id",
    or_else (prop o "block_transaction_id") (JString ""));
   ("actual_amount", prop o "actual_amount");
   ("updated_at", JNumber (now out))].

(** The table [updatePaymentRecord] leaves behind. *)
Definition written (env : Env) (out : Outside) (orderId : value)
           (updates : object) (t : D1.table) : D1.table :=
  records (snd (updatePaymentRecord env out orderId updates (mkWorld t []))).

(** Console output, as opposed to a statement sent to D1 or a request
    sent out. *)
Definition is_console (e : Event) : bool :=
  match e with
  | ConsoleLog _ _ | ConsoleError _ _ => true
  | Fetch _ _ | Sql _ => false
  end.

Definition is_fetch (e : Event) : bool :=
  match e with
  | Fetch _ _ => true
  | _ => false
  end.


End Worker.

(* ================================================================== *)
(** * The signing rule as the specification words it                   *)
(* ================================================================== *)

Module Reference.
Import Js.
Local Open Scope completion_scope.

(** A value is absent ([undefined]) or empty (the empty string). *)
Definition absent_or_empty (v : value) : bool :=
  match v with
  | JUndefined => true
  | JString s => String.eqb s ""
  | _ => false
  end.

(** Drop the signature field and every absent or empty field. *)
Definition kept (field : string * value) : bool :=
  negb (String.eqb (fst field) "signature")
  && negb (absent_or_empty (snd field)).

Section Order.

(** The order in which names are put: [earlier a b] when [a] comes no
    later than [b]. *)
Variable earlier : string -> string -> bool.

(** Fields in ascending order of their names. *)
Fixpoint place (field : string * value) (l : list (string * value))
  : list (string * value) :=
  match l with
  | [] => [field]
  | g :: rest =>
      if earlier (fst field) (fst g) then field :: l
      else g :: place field rest
  end.

Fixpoint by_name (l : list (string * value)) : list (string * value) :=
  match l with
  | [] => []
  | field :: rest => place field (by_name rest)
  end.

End Order.

(** [name=value]. *)
Definition pair (field : string * value) : Completion string :=
  let! v := ToString (snd field) in
  Normal (fst field ++ "=" ++ v)%string.

Definition lower_hex_digit (n : N) : ascii :=
  match n with
  | 0 => "0" | 1 => "1" | 2 => "2" | 3 => "3" | 4 => "4" | 5 => "5"
  | 6 => "6" | 7 => "7" | 8 => "8" | 9 => "9" | 10 => "a" | 11 => "b"
  | 12 => "c" | 13 => "d" | 14 => "e" | _ => "f"
  end%N%char.

(** Two lowercase hexadecimal digits per byte. *)
Fixpoint lower_hex (digest : list byte) : string :=
  match digest with
  | [] => EmptyString
  | b :: rest =>
      let n := Byte.to_N b in
      String (lower_hex_digit (n / 16))
             (String (lower_hex_digit (n mod 16)) (lower_hex rest))
  end.

Definition sign_by (earlier : string -> string -> bool)
           (params : object) (secret : value) : Completion string :=
  let! pairs := mapM pair (by_name earlier (filter kept params)) in
  let! suffix := ToString secret in
  Normal (lower_hex (MD5.digest (encode (join "&" pairs ++ suffix)%string))).

(** The rule with names in bytewise order, and the rule with names in
    the order of their UTF-16 code units. *)
Definition sign : object -> value -> Completion string :=
  sign_by String.leb.

Definition sign_utf16 : object -> value -> Completion string :=
  sign_by before.

End Reference.

(* ================================================================== *)
(** * A gateway, an order and its callbacks                            *)
(* ================================================================== *)

Module Scenario.
Import Js Worker.

Definition secret : value := JString "secret".

Definition env : Env :=
  mkEnv true (JString "https://pay.example") secret
        (JString "https://manager.example/api/payment/notify") JUndefined.

(** The seven signed fields of a callback reporting order A1 paid. *)
Definition paid_fields : object :=
  [("trade_id", JString "T1"); ("order_id", JString "A1");
   ("amount", JNumber 10); ("actual_amount", JString "10.00");
   ("token", JString "TXYZ"); ("block_transaction_id", JString "0xabc");
   ("status", JNumber 2)].

(** MD5 of [actual_amount=10.00&amount=10&block_transaction_id=0xabc&
    order_id=A1&status=2&token=TXYZ&trade_id=T1secret]. *)
Definition paid_digest : string := "8c88d3bf30d6e4c78e400da2069e4902".

(** The same order reported as waiting for payment, with no transaction
    yet.  MD5 of [actual_amount=10.00&amount=10&order_id=A1&status=1&
    token=TXYZ&trade_id=T1secret]. *)
Definition created_fields : object :=
  [("trade_id", JString "T1"); ("order_id", JString "A1");
   ("amount", JNumber 10); ("actual_amount", JString "10.00");
   ("token", JString "TXYZ"); ("block_transaction_id", JString "");
   ("status", JNumber 1)].

Definition created_digest : string := "91a510b5274a5bdf19f008b8052ee733".

Definition post (body : value) : Request :=
  mkRequest "https://gw.example" (Normal body).

Definition paid : Request :=
  post (JObject (paid_fields ++ [("signature", JString paid_digest)])).

Definition created : Request :=
  post (JObject (created_fields ++ [("signature", JString created_digest)])).

(** A callback with a digest that is not the expected one, one with no
    signature at all, and one whose signature is a JSON number. *)
Definition forged : Request :=
  post (JObject (paid_fields
                 ++ [("signature", JString "00000000000000000000000000000000")])).

Definition unsigned : Request := post (JObject paid_fields).

Definition numbered : Request :=
  post (JObject (paid_fields ++ [("signature", JNumber 7)])).


(** The row of order A1, with a given status. *)
Definition row (status : Z) : D1.payment_record :=
  D1.mkRecord (D1.SqlText "A1") (D1.SqlText "T1") (D1.SqlInteger 10)
              (D1.SqlText "10.00") (D1.SqlText "usdt.trc20") (D1.SqlText "")
              (D1.SqlInteger status) (D1.SqlText "https://pay.example/T1")
              (D1.SqlText "TXYZ") D1.SqlNull (D1.SqlInteger 500) D1.SqlNull.

Definition world (status : Z) : World := mkWorld [row status] [].

(** The outside at a given time, with D1 and the manager answering, and
    with the manager unreachable. *)
Definition at_time (t : Z) : Outside :=
  mkOutside t false (Normal (Normal JNull)).

Definition manager_down (t : Z) : Outside :=
  mkOutside t false (Throw NetworkError).

Definition d1_down (t : Z) : Outside :=
  mkOutside t true (Normal (Normal JNull)).

End Scenario.

(* ================================================================== *)
(** * The entry point                                                  *)
(* ================================================================== *)

Module Entry.
Import Js Worker.

(** What the router reads of a request: its method, the pathname and
    the [order_id] search parameter of its URL ([null] when the URL has
    none), and the rest, which it hands to the handlers. *)
Record Call := mkCall {
  method : string;
  pathname : string;
  order_id_param : option string;
  request : Request
}.

(** What the router returns: a response with a body, or one made with a
    [null] body ([handleCORS], [Response.redirect]). *)
Inductive Reply :=
| Full (r : Response)
| Bodiless (status : Z) (headers : list (string * string)).

Definition handleCORS : Reply :=
  Bodiless 204
    [("Access-Control-Allow-Origin", "*");
     ("Access-Control-Allow-Methods", "GET, POST, OPTIONS");
     ("Access-Control-Allow-Headers", "Content-Type, Authorization");
     ("Access-Control-Max-Age", "86400")].

(** [s.startsWith(prefix)]. *)
Definition startsWith (s prefix : string) : bool := String.prefix prefix s.

(** [s.split(sep)] for a one-character separator: never an empty
    array. *)
Fixpoint split (sep : ascii) (s : string) : list string :=
  match s with
  | EmptyString => [EmptyString]
  | String c rest =>
      if Ascii.eqb c sep then EmptyString :: split sep rest
      else match split sep rest with
           | segment :: segments => String c segment :: segments
           | [] => [String c EmptyString]
           end
  end.

(** [a.pop()] on the array [split] returns. *)
Definition pop (a : list string) : string := last a EmptyString.

Section Fetch.

(** [parseFloat], and the URL parser behind [Response.redirect]: the
    serialisation of the parsed URL, or nothing when the string does not
    parse. *)
Variable parseFloat : value -> Completion value.
Variable parse_url : string -> option string.

(** [Response.redirect(url, status)] throws a [TypeError] on a string
    that does not parse as a URL. *)
Definition redirect (url : string) (status : Z) : Completion Reply :=
  match parse_url url with
  | Some location => Normal (Bodiless status [("Location", location)])
  | None => Throw TypeError
  end.

Definition handlePaymentReturn (call : Call) (env : Env)
  : Completion Reply :=
  (let orderId := match order_id_param call with
                  | Some id => id
                  | None => "null"
                  end in
   let redirectUrl := or_else (REDIRECT_BASE_URL env) (JString "/") in
   let! base := ToString redirectUrl in
   redirect (base ++ "?payment_success=1&order_id=" ++ orderId)%string
            302)%completion.

Definition banner : Response :=
  mkResponse (Text "Payment Gateway Running") 200
             [("Content-Type", "text/html; charset=utf-8")].

Local Open Scope worker_scope.

Definition full (m : M Response) : M Reply := r <- m ;; ret (Full r).

(** The routes of one method: the handler of the first path test that
    holds, or nothing, in which case the router goes on. *)
Definition post_routes (call : Call) (env : Env) (out : Outside)
  : option (M Reply) :=
  let path := pathname call in
  if String.eqb path "/api/pay/create" then
    Some (full (handleCreatePayment parseFloat (request call) env out))
  else if String.eqb path "/api/pay/notify" then
    Some (full (handlePaymentNotify (request call) env out))
  else None.

Definition get_routes (call : Call) (env : Env) (out : Outside)
  : option (M Reply) :=
  let path := pathname call in
  if startsWith path "/api/pay/status/" then
    let tradeId := pop (split "/" path) in
    Some (full (handleQueryStatus tradeId env out))
  else if String.eqb path "/api/pay/return" then
    Some (lift (handlePaymentReturn call env))
  else None.

Definition fetch (call : Call) (env : Env) (out : Outside) : M Reply :=
  if String.eqb (method call) "OPTIONS" then ret handleCORS
  else
    match (if String.eqb (method call) "POST"
           then post_routes call env out else None) with
    | Some handler => handler
    | None =>
        match (if String.eqb (method call) "GET"
               then get_routes call env out else None) with
        | Some handler => handler
        | None => ret (Full banner)
        end
    end.

End Fetch.

End Entry.

(* ================================================================== *)
(** * Shapes of values and of digests                                  *)
(* ================================================================== *)

Module Shape.
Import Js.

(** A value that is neither an array nor an object. *)
Definition primitive (v : value) : bool :=
  match v with
  | JArray _ | JObject _ => false
  | _ => true
  end.

Fixpoint all_chars (p : ascii -> bool) (s : string) : bool :=
  match s with
  | EmptyString => true
  | String c rest => p c && all_chars p rest
  end.

(** One of [0-9a-f]. *)
Definition is_lower_hex (c : ascii) : bool :=
  let n := N_of_ascii c in
  ((48 <=? n) && (n <=? 57) || (97 <=? n) && (n <=? 102))%N.

(** What [unbind] gives back for a value that was bound: booleans come
    back as the numbers 1 and 0. *)
Definition stored_form (v : value) : value :=
  match v with
  | JBoolean b => JNumber (if b then 1 else 0)
  | _ => v
  end.

(** A value of the type of a [TEXT] column, and one of the type of an
    [INTEGER] or [REAL] column. *)
Definition text (v : value) : bool :=
  match v with
  | JString _ | JNull => true
  | _ => false
  end.

Definition number (v : value) : bool :=
  match v with
  | JNumber _ => true
  | _ => false
  end.

End Shape.

(* ================================================================== *)
(** * Values on the wire                                               *)
(* ================================================================== *)

Module Wire.
Import Js.

(** [JSON.parse(JSON.stringify(v))] for a value [v] of the model other
    than [undefined]: a property whose value is [undefined] is left out,
    an [undefined] element of an array is written [null]. *)
Fixpoint stringified (v : value) : value :=
  match v with
  | JArray elems =>
      JArray
        ((fix each (l : list value) : list value :=
            match l with
            | [] => []
            | x :: rest =>
                match x with
                | JUndefined => JNull
                | _ => stringified x
                end :: each rest
            end) elems)
  | JObject props =>
      JObject
        ((fix each (l : list (string * value)) : list (string * value) :=
            match l with
            | [] => []
            | (k, x) :: rest =>
                match x with
                | JUndefined => each rest
                | _ => (k, stringified x) :: each rest
                end
            end) props)
  | _ => v
  end.

(** A value as [JSON.parse] gives it: with no [undefined] in it. *)
Fixpoint parsed (v : value) : bool :=
  match v with
  | JUndefined => false
  | JArray elems =>
      (fix each (l : list value) : bool :=
         match l with
         | [] => true
         | x :: rest => parsed x && each rest
         end) elems
  | JObject props =>
      (fix each (l : list (string * value)) : bool :=
         match l with
         | [] => true
         | (_, x) :: rest => parsed x && each rest
         end) props
  | _ => true
  end.

End Wire.

(* ================================================================== *)
(** * An order being created                                           *)
(* ================================================================== *)

Module Checkout.
Import Js Worker.

(** A creation request for order A2, and the gateway's answers. *)
Definition order : Request :=
  Scenario.post (JObject [("order_id", JString "A2"); ("amount", JNumber 25);
                          ("user_id", JString "u7")]).

Definition accepted : value :=
  JObject [("status_code", JNumber 200); ("message", JString "success");
           ("data",
            JObject [("trade_id", JString "T2"); ("order_id", JString "A2");
                     ("amount", JNumber 25);
                     ("actual_amount", JString "25.01");
                     ("token", JString "TXYZ");
                     ("expiration_time", JNumber 600);
                     ("payment_url", JString "https://pay.example/pay/T2")])].

Definition refused : value :=
  JObject [("status_code", JNumber 400);
           ("message", JString "order exists")].

Definition gateway (reply : Completion (Completion value)) (fails : bool)
  : Outside := mkOutside 1000 fails reply.

(** [parseFloat] on what is already a number. *)
Definition parseFloat (v : value) : Completion value := Normal v.

(** A URL parser that accepts absolute [https] URLs as they are. *)
Definition parse_url (s : string) : option string :=
  if String.prefix "https://" s then Some s else None.

Definition get (path : string) (id : option string) : Entry.Call :=
  Entry.mkCall "GET" path id (mkRequest "https://gw.example" (Throw SyntaxError)).

End Checkout.

(* ================================================================== *)
(** * Sorting strings                                                  *)
(* ================================================================== *)

Module SortFacts.
Import Js.

Lemma compare_units_eq (a b : list N) : compare_units a b = Eq -> a = b.
Proof.
  revert b; induction a as [|x a IH]; intros [|y b]; cbn; try discriminate;
    trivial.
  destruct (N.compare_spec x y) as [->|_|_]; try discriminate.
  intros H. now rewrite (IH _ H).
Qed.

Lemma compare_units_refl (a : list N) : compare_units a a = Eq.
Proof.
  induction a as [|x a IH]; cbn; trivial. now rewrite N.compare_refl.
Qed.

Lemma compare_units_antisym (a b : list N) :
  compare_units b a = CompOpp (compare_units a b).
Proof.
  revert b; induction a as [|x a IH]; intros [|y b]; cbn; trivial.
  rewrite (N.compare_antisym x y).
  destruct (x ?= y)%N; cbn; trivial.
Qed.

Lemma compare_units_trans (a b c : list N) :
  compare_units a b = Lt -> compare_units b c = Lt -> compare_units a c = Lt.
Proof.
  revert b c; induction a as [|x a IH]; intros [|y b] [|z c]; cbn;
    try discriminate; trivial.
  destruct (N.compare_spec x y) as [->|Lxy|Gxy]; try discriminate.
  - destruct (y ?= z)%N; try discriminate; trivial. apply IH.
  - intros _.
    destruct (N.compare_spec y z) as [->|Lyz|Gyz]; try discriminate; intros _.
    + now apply N.compare_lt_iff in Lxy as ->.
    + assert (L : (x < z)%N) by lia. now apply N.compare_lt_iff in L as ->.
Qed.

Lemma before_total (a b : string) : before a b = true \/ before b a = true.
Proof.
  unfold before. rewrite (compare_units_antisym (code_units a)).
  destruct (compare_units _ _); cbn; auto. apply String.leb_total.
Qed.

Lemma before_antisym (a b : string) :
  before a b = true -> before b a = true -> a = b.
Proof.
  unfold before. rewrite (compare_units_antisym (code_units a)).
  destruct (compare_units _ _); cbn; try discriminate.
  apply String.leb_antisym.
Qed.

Lemma leb_trans (a b c : string) :
  String.leb a b = true -> String.leb b c = true -> String.leb a c = true.
Proof.
  unfold String.leb.
  revert b c; induction a as [|x a IH]; intros [|y b] [|z c]; simpl;
    try congruence.
  unfold Ascii.compare.
  destruct (N.compare_spec (N_of_ascii x) (N_of_ascii y)) as [Exy|Lxy|Gxy];
    destruct (N.compare_spec (N_of_ascii y) (N_of_ascii z)) as [Eyz|Lyz|Gyz];
    destruct (N.compare_spec (N_of_ascii x) (N_of_ascii z)) as [Exz|Lxz|Gxz];
    try congruence; try lia.
  apply IH.
Qed.

Lemma before_trans (a b c : string) :
  before a b = true -> before b c = true -> before a c = true.
Proof.
  unfold before.
  destruct (compare_units (code_units a) (code_units b)) eqn:Eab;
    try discriminate.
  - apply compare_units_eq in Eab. rewrite Eab.
    destruct (compare_units (code_units b) (code_units c)); try discriminate;
      trivial.
    apply leb_trans.
  - intros _.
    destruct (compare_units (code_units b) (code_units c)) eqn:Ebc;
      try discriminate; intros _.
    + apply compare_units_eq in Ebc. now rewrite <- Ebc, Eab.
    + now rewrite (compare_units_trans _ _ _ Eab Ebc).
Qed.

Lemma before_false (a b : string) : before a b = false -> before b a = true.
Proof.
  intros H. destruct (before_total a b) as [E|E]; congruence.
Qed.

(** On strings of ASCII characters the order by code units is the
    order by bytes. *)
Lemma before_ascii (a b : string) :
  ascii_only a = true -> ascii_only b = true -> before a b = String.leb a b.
Proof.
  intros Ha Hb.
  assert (E : compare_units (code_units a) (code_units b)
              = String.compare a b).
  { revert b Ha Hb; induction a as [|x a IH]; intros [|y b]; cbn; trivial.
    - intros _ H. apply andb_true_iff in H. destruct H as [H _].
      now rewrite H.
    - intros H _. apply andb_true_iff in H. destruct H as [H _].
      now rewrite H.
    - intros Ha Hb.
      apply andb_true_iff in Ha. destruct Ha as [Hx Ha].
      apply andb_true_iff in Hb. destruct Hb as [Hy Hb].
      rewrite Hx, Hy. cbn. unfold Ascii.compare.
      destruct (N_of_ascii x ?= N_of_ascii y)%N; trivial. now apply IH. }
  unfold before, String.leb. rewrite E.
  now destruct (String.compare a b).
Qed.

Lemma insert_comm (x y : string) (l : list string) :
  insert x (insert y l) = insert y (insert x l).
Proof.
  induction l as [|z l IH]; simpl.
  - destruct (before x y) eqn:Exy, (before y x) eqn:Eyx; trivial.
    + now rewrite (before_antisym _ _ Exy Eyx).
    + apply before_false in Exy. congruence.
  - destruct (before y z) eqn:Eyz, (before x z) eqn:Exz; simpl;
      rewrite ?Eyz, ?Exz.
    + destruct (before x y) eqn:Exy, (before y x) eqn:Eyx; trivial.
      * now rewrite (before_antisym _ _ Exy Eyx).
      * apply before_false in Exy. congruence.
    + destruct (before x y) eqn:Exy; trivial.
      rewrite (before_trans _ _ _ Exy Eyz) in Exz. discriminate.
    + destruct (before y x) eqn:Eyx; trivial.
      rewrite (before_trans _ _ _ Eyx Exz) in Eyz. discriminate.
    + now rewrite IH.
Qed.

Lemma sort_Permutation_eq (l l' : list string) :
  Permutation l l' -> sort l = sort l'.
Proof.
  induction 1; simpl; try congruence.
  apply insert_comm.
Qed.

Lemma insert_Permutation (x : string) (l : list string) :
  Permutation (insert x l) (x :: l).
Proof.
  induction l as [|y l IH]; simpl; trivial.
  destruct (before x y); trivial.
  rewrite IH. apply perm_swap.
Qed.

Lemma sort_Permutation (l : list string) : Permutation (sort l) l.
Proof.
  induction l as [|x l IH]; simpl; trivial.
  rewrite insert_Permutation. now constructor.
Qed.

Definition le (a b : string) : Prop := before a b = true.

Lemma insert_sorted (x : string) (l : list string) :
  StronglySorted le l -> StronglySorted le (insert x l).
Proof.
  induction 1 as [|y l Hs IH Hy]; simpl.
  - repeat constructor.
  - destruct (before x y) eqn:E.
    + constructor. { now constructor. }
      constructor; trivial.
      eapply Forall_impl; [|exact Hy]. intros z. now apply before_trans.
    + constructor; trivial.
      eapply Permutation_Forall.
      { symmetry. apply insert_Permutation. }
      constructor; trivial. now apply before_false.
Qed.

Lemma sort_sorted (l : list string) : StronglySorted le (sort l).
Proof.
  induction l; simpl; [constructor | now apply insert_sorted].
Qed.

Lemma sort_of_sorted (l : list string) : StronglySorted le l -> sort l = l.
Proof.
  induction 1 as [|x l Hs IH Hx]; simpl; trivial.
  rewrite IH. destruct Hx as [|y l Hy _]; simpl; trivial.
  unfold le in Hy. now rewrite Hy.
Qed.

Lemma filter_sorted (p : string -> bool) (l : list string) :
  StronglySorted le l -> StronglySorted le (filter p l).
Proof.
  induction 1 as [|x l Hs IH Hx]; simpl; [constructor|].
  destruct (p x); trivial. constructor; trivial.
  apply Forall_forall. intros y Hy. apply filter_In in Hy.
  rewrite Forall_forall in Hx. now apply Hx.
Qed.

Lemma filter_Permutation (p : string -> bool) (l l' : list string) :
  Permutation l l' -> Permutation (filter p l) (filter p l').
Proof.
  induction 1; simpl.
  - constructor.
  - destruct (p x); auto.
  - destruct (p x), (p y); auto. apply perm_swap.
  - etransitivity; eauto.
Qed.

Lemma filter_sort (p : string -> bool) (l : list string) :
  filter p (sort l) = sort (filter p l).
Proof.
  rewrite <- (sort_of_sorted (filter p (sort l))).
  - apply sort_Permutation_eq, filter_Permutation, sort_Permutation.
  - apply filter_sorted, sort_sorted.
Qed.

End SortFacts.

(* ================================================================== *)
(** * Objects, strings and completions                                 *)
(* ================================================================== *)

Module JsFacts.
Import Js.
Local Open Scope completion_scope.

Lemma prop_In (o : object) (k : string) (v : value) :
  wf o -> In (k, v) o -> prop o k = v.
Proof.
  unfold wf, keys.
  induction o as [|[k' v'] o IH]; simpl; intros Hnd Hin; [easy|].
  inversion Hnd as [|? ? Hk Hnd']; subst.
  destruct Hin as [E|Hin].
  - inversion E; subst. now rewrite String.eqb_refl.
  - destruct (String.eqb_spec k' k) as [->|_]; [|now apply IH].
    exfalso. apply Hk. change k with (fst (k, v)). now apply in_map.
Qed.

Lemma prop_Permutation (o o' : object) (k : string) :
  wf o -> Permutation o o' -> prop o k = prop o' k.
Proof.
  unfold wf, keys. intros Hnd Hp. revert Hnd.
  induction Hp as [|[a v] l l' Hp IH|[a v] [b u] l|l l' l'' H1 IH1 H2 IH2];
    simpl; intros Hnd; trivial.
  - inversion Hnd; subst. now rewrite IH.
  - inversion Hnd as [|? ? Hb _]; subst. simpl in Hb.
    destruct (String.eqb_spec b k) as [->|_], (String.eqb_spec a k) as [->|_];
      trivial.
    exfalso. apply Hb. now left.
  - rewrite IH1; trivial. apply IH2.
    eapply Permutation_NoDup; [|exact Hnd]. now apply Permutation_map.
Qed.

Lemma mapM_ext_in {A B} (f g : A -> Completion B) (l : list A) :
  (forall x, In x l -> f x = g x) -> mapM f l = mapM g l.
Proof.
  induction l as [|x l IH]; simpl; intros H; trivial.
  rewrite (H x), IH; auto.
Qed.

Lemma mapM_map {A B C} (f : B -> Completion C) (g : A -> B) (l : list A) :
  mapM f (map g l) = mapM (fun x => f (g x)) l.
Proof.
  induction l as [|x l IH]; simpl; trivial. now rewrite IH.
Qed.

Lemma map_string_append (f : ascii -> ascii) (s t : string) :
  map_string f (s ++ t) = (map_string f s ++ map_string f t)%string.
Proof.
  induction s as [|c s IH]; simpl; trivial. now rewrite IH.
Qed.

Lemma lower_ascii_idem (c : ascii) :
  lower_ascii (lower_ascii c) = lower_ascii c.
Proof.
  destruct c as [[] [] [] [] [] [] [] []]; vm_compute; reflexivity.
Qed.

Lemma lower_upper_ascii (c : ascii) :
  lower_ascii (upper_ascii c) = lower_ascii c.
Proof.
  destruct c as [[] [] [] [] [] [] [] []]; vm_compute; reflexivity.
Qed.

Lemma toLowerCase_idem (s : string) :
  toLowerCase (toLowerCase s) = toLowerCase s.
Proof.
  unfold toLowerCase.
  induction s as [|c s IH]; simpl; trivial.
  now rewrite lower_ascii_idem, IH.
Qed.

Lemma toLowerCase_toUpperCase (s : string) :
  toLowerCase (toUpperCase s) = toLowerCase s.
Proof.
  unfold toLowerCase, toUpperCase.
  induction s as [|c s IH]; simpl; trivial.
  now rewrite lower_upper_ascii, IH.
Qed.

Lemma append_empty_r (s : string) : (s ++ "")%string = s.
Proof.
  induction s as [|c s IH]; simpl; trivial. now rewrite IH.
Qed.

Lemma join_empty_cons (x : string) (l : list string) :
  join "" (x :: l) = (x ++ join "" l)%string.
Proof.
  unfold join. destruct l; simpl; trivial.
  now rewrite append_empty_r.
Qed.

End JsFacts.

(* ================================================================== *)
(** * The signer                                                       *)
(* ================================================================== *)

Module SignerFacts.
Import Js Signer SortFacts JsFacts.
Local Open Scope completion_scope.

Lemma signed_key_ext (o o' : object) (k : string) :
  prop o k = prop o' k -> signed_key o k = signed_key o' k.
Proof. unfold signed_key. now intros ->. Qed.

Lemma key_value_ext (o o' : object) (k : string) :
  prop o k = prop o' k -> key_value o k = key_value o' k.
Proof. unfold key_value. now intros ->. Qed.

Lemma signed_key_kept (params : object) (field : string * value) :
  prop params (fst field) = snd field ->
  signed_key params (fst field) = Reference.kept field.
Proof.
  unfold signed_key, Reference.kept. intros ->.
  destruct (snd field); simpl; rewrite ?andb_true_r; trivial.
Qed.

Lemma filter_signed_kept (params : object) (l : list (string * value)) :
  (forall field, In field l -> prop params (fst field) = snd field) ->
  filter (signed_key params) (map fst l) = map fst (filter Reference.kept l).
Proof.
  induction l as [|field l IH]; simpl; intros H; trivial.
  rewrite signed_key_kept by auto.
  destruct (Reference.kept field); simpl; rewrite IH; auto.
Qed.

Lemma place_Permutation earlier (field : string * value) l :
  Permutation (Reference.place earlier field l) (field :: l).
Proof.
  induction l as [|g l IH]; simpl; trivial.
  destruct (earlier _ _); trivial.
  rewrite IH. apply perm_swap.
Qed.

Lemma by_name_Permutation earlier l :
  Permutation (Reference.by_name earlier l) l.
Proof.
  induction l as [|field l IH]; simpl; trivial.
  rewrite place_Permutation. now constructor.
Qed.

Lemma map_fst_place (field : string * value) l :
  map fst (Reference.place before field l) = insert (fst field) (map fst l).
Proof.
  induction l as [|g l IH]; simpl; trivial.
  destruct (before _ _); simpl; trivial. now rewrite IH.
Qed.

Lemma map_fst_by_name l :
  map fst (Reference.by_name before l) = sort (map fst l).
Proof.
  induction l as [|field l IH]; simpl; trivial.
  now rewrite map_fst_place, IH.
Qed.

Lemma place_ascii (field : string * value) l :
  ascii_only (fst field) = true ->
  Forall (fun g => ascii_only (fst g) = true) l ->
  Reference.place before field l = Reference.place String.leb field l.
Proof.
  intros Hf. induction 1 as [|g l Hg Hl IH]; simpl; trivial.
  rewrite before_ascii by trivial. now rewrite IH.
Qed.

Lemma by_name_ascii l :
  Forall (fun g => ascii_only (fst g) = true) l ->
  Reference.by_name before l = Reference.by_name String.leb l.
Proof.
  induction 1 as [|field l Hf Hl IH]; simpl; trivial.
  rewrite IH. apply place_ascii; trivial.
  eapply Permutation_Forall; [|exact Hl].
  symmetry. apply by_name_Permutation.
Qed.

Lemma byte_hex (b : byte) :
  padStart 2 "0" (toString16 b)
  = String (Reference.lower_hex_digit (Byte.to_N b / 16))
      (String (Reference.lower_hex_digit (Byte.to_N b mod 16)) EmptyString).
Proof. destruct b; vm_compute; reflexivity. Qed.

Lemma byte_hex_lower (b : byte) :
  toLowerCase (padStart 2 "0" (toString16 b)) = padStart 2 "0" (toString16 b).
Proof. destruct b; vm_compute; reflexivity. Qed.

Lemma hashHex_lower_hex (d : list byte) :
  toLowerCase (hashHex d) = Reference.lower_hex d.
Proof.
  unfold hashHex.
  induction d as [|b d IH]; trivial.
  cbn [map]. rewrite join_empty_cons. unfold toLowerCase in *.
  rewrite map_string_append.
  change (map_string lower_ascii ?s) with (toLowerCase s) at 1.
  rewrite byte_hex_lower, byte_hex, IH. reflexivity.
Qed.

Lemma signed_parts (params : object) :
  wf params ->
  mapM (key_value params) (filter (signed_key params) (sort (keys params)))
  = mapM Reference.pair
      (Reference.by_name before (filter Reference.kept params)).
Proof.
  intros Hwf.
  rewrite filter_sort. unfold keys.
  rewrite filter_signed_kept.
  2:{ intros [k v] Hin. now apply prop_In. }
  rewrite <- map_fst_by_name, mapM_map.
  apply mapM_ext_in. intros [k v] Hin.
  unfold key_value, Reference.pair. simpl.
  rewrite (prop_In params k v); trivial.
  apply (Permutation_in _ (by_name_Permutation _ _)) in Hin.
  now apply filter_In in Hin.
Qed.

Lemma generateSignature_lower params token d :
  generateSignature params token = Normal d -> toLowerCase d = d.
Proof.
  unfold generateSignature.
  destruct (mapM _ _); cbn [cbind]; [|discriminate].
  destruct (ToString token); cbn [cbind]; [|discriminate].
  intros E. inversion E. apply toLowerCase_idem.
Qed.

Lemma wf_paid_fields : wf Scenario.paid_fields.
Proof.
  unfold wf. cbn.
  repeat (constructor; [cbn; intuition discriminate|]). constructor.
Qed.

(** C5, as the code has it.  For every parameter object with distinct
    property names and every secret, [generateSignature] gives what the
    reference rule gives when names are put in the order of their UTF-16
    code units: drop the signature field and the absent or empty fields,
    put the remaining fields in ascending order of their names, join
    them as [name=value] with [&], append the secret, hash, and print the
    digest as lowercase hexadecimal.  Both throw the same exception when
    a value has no string conversion.  When every name is a string of
    ASCII characters that order is the bytewise order, and
    [generateSignature] gives what the bytewise rule gives. *)
Theorem generateSignature_is_reference (params : object) (token : value) :
  wf params ->
  generateSignature params token = Reference.sign_utf16 params token
  /\ (forallb ascii_only (keys params) = true ->
      generateSignature params token = Reference.sign params token).
Proof.
  intros Hwf.
  assert (E : generateSignature params token
              = Reference.sign_utf16 params token).
  { unfold generateSignature, Reference.sign_utf16, Reference.sign_by.
    rewrite signed_parts by trivial.
    destruct (mapM _ _) as [pairs|e]; cbn [cbind]; trivial.
    destruct (ToString token) as [suffix|e]; cbn [cbind]; trivial.
    now rewrite hashHex_lower_hex. }
  split; [exact E|].
  intros Ha. rewrite E.
  unfold Reference.sign_utf16, Reference.sign, Reference.sign_by.
  rewrite by_name_ascii; trivial.
  apply Forall_forall. intros [k v] Hin. cbn.
  apply filter_In in Hin. destruct Hin as [Hin _].
  rewrite forallb_forall in Ha. apply Ha.
  unfold keys. change k with (fst (k, v)). now apply in_map.
Qed.

Lemma generateSignature_is_reference_witness :
  wf Scenario.paid_fields
  /\ forallb ascii_only (keys Scenario.paid_fields) = true
  /\ generateSignature Scenario.paid_fields Scenario.secret
     = Reference.sign Scenario.paid_fields Scenario.secret
  /\ Reference.sign Scenario.paid_fields Scenario.secret
     = Normal Scenario.paid_digest.
Proof.
  split; [exact wf_paid_fields|]. split; [reflexivity|]. split.
  - apply (generateSignature_is_reference _ _ wf_paid_fields). reflexivity.
  - vm_compute. reflexivity.
Defined.

(** Two fields whose names are U+FF5E and U+1F600.  In bytes the first
    name comes first ([EF BD 9E] against [F0 9F 98 80]); in UTF-16 code
    units the second does ([D83D DE00] against [FF5E]).
    [generateSignature] signs [U+1F600=b&U+FF5E=a] followed by the
    secret, the bytewise rule [U+FF5E=a&U+1F600=b] followed by the
    secret. *)
Lemma generateSignature_not_bytewise :
  generateSignature [("～", JString "a"); ("😀", JString "b")] Scenario.secret
  = Normal "a121c7d48efdcd31b0e2d3007f903b07"
  /\ Reference.sign [("～", JString "a"); ("😀", JString "b")] Scenario.secret
     = Normal "8309e023d37197dab2beb5e459c77602".
Proof. split; vm_compute; reflexivity. Qed.

(** C6.  The signature does not depend on the order in which the
    properties of the object were inserted: every permutation of the
    same name-value pairs signs to the same digest. *)
Theorem generateSignature_insertion_order (o o' : object) (token : value) :
  wf o -> Permutation o o' ->
  generateSignature o' token = generateSignature o token.
Proof.
  intros Hwf Hp. unfold generateSignature.
  rewrite (sort_Permutation_eq (keys o') (keys o)).
  2:{ symmetry. now apply Permutation_map. }
  rewrite (filter_ext (signed_key o') (signed_key o)).
  2:{ intros k. apply signed_key_ext. symmetry. now apply prop_Permutation. }
  rewrite (mapM_ext_in (key_value o') (key_value o)); trivial.
  intros k _. apply key_value_ext. symmetry. now apply prop_Permutation.
Qed.

Lemma generateSignature_insertion_order_witness :
  wf Scenario.paid_fields
  /\ Permutation Scenario.paid_fields (rev Scenario.paid_fields)
  /\ generateSignature (rev Scenario.paid_fields) Scenario.secret
     = generateSignature Scenario.paid_fields Scenario.secret.
Proof.
  split; [exact wf_paid_fields|]. split; [apply Permutation_rev|].
  apply (generateSignature_insertion_order _ _ _ wf_paid_fields).
  apply Permutation_rev.
Defined.

(** C7.  Whenever [generateSignature] returns a digest, [verifySignature]
    accepts that digest for the same parameters and secret, and also
    accepts it written in uppercase. *)
Theorem verifySignature_accepts_own_digest params token d :
  generateSignature params token = Normal d ->
  verifySignature params token (JString d) = Normal true
  /\ verifySignature params token (JString (toUpperCase d)) = Normal true.
Proof.
  intros H. unfold verifySignature. rewrite H. cbn [cbind].
  rewrite toLowerCase_toUpperCase, (generateSignature_lower _ _ _ H).
  now rewrite String.eqb_refl.
Qed.

Lemma verifySignature_accepts_own_digest_witness :
  generateSignature Scenario.paid_fields Scenario.secret
  = Normal Scenario.paid_digest
  /\ verifySignature Scenario.paid_fields Scenario.secret
       (JString "8c88d3bf30d6e4c78e400da2069e4902") = Normal true
  /\ verifySignature Scenario.paid_fields Scenario.secret
       (JString "8C88D3BF30D6E4C78E400DA2069E4902") = Normal true.
Proof.
  assert (H : generateSignature Scenario.paid_fields Scenario.secret
              = Normal Scenario.paid_digest) by (vm_compute; reflexivity).
  split; [exact H|].
  exact (verifySignature_accepts_own_digest _ _ _ H).
Defined.

End SignerFacts.
(* ================================================================== *)
(** * The table                                                        *)
(* ================================================================== *)

Module D1Facts.
Import D1.



Lemma update_rows st btid actual upd key (t : table) :
  Forall2 (fun r r' =>
             order_id r' = order_id r
             /\ if sql_eqb (order_id r) key then status r' = st else r' = r)
          t (update st btid actual upd key t).
Proof.
  induction t as [|r t IH]; cbn; constructor; trivial.
  destruct (sql_eqb (order_id r) key); auto.
Qed.

Lemma find_absent {A} (f : A -> bool) (l : list A) :
  (forall x, In x l -> f x = false) -> find f l = None.
Proof.
  induction l as [|x l IH]; cbn; intros H; trivial.
  rewrite (H x) by auto. auto.
Qed.

End D1Facts.

(* ================================================================== *)
(** * The handlers                                                     *)
(* ================================================================== *)

Module WorkerFacts.
Import Js Signer Worker D1Facts.

Lemma Get_cases (body : value) :
  (forall k, Get body k = Throw TypeError)
  \/ (exists o, forall k, Get body k = Normal (prop o k)).
Proof.
  destruct body; simpl; auto; right;
    solve [ exists []; reflexivity | eexists; reflexivity ].
Qed.

Ltac run_update :=
  unfold written, updatePaymentRecord, try_catch, bind, prepare, run, lift,
    throw, ret, emit, console_error.

Ltac bind_cases :=
  repeat match goal with
         | |- context [D1.bind ?v] => destruct (D1.bind v); cbn; trivial
         end.

Lemma updatePaymentRecord_normal env out orderId updates w :
  fst (updatePaymentRecord env out orderId updates w) = Normal tt.
Proof.
  run_update. destruct (DB env); cbn; trivial.
  bind_cases. destruct (d1_fails out); cbn; trivial.
Qed.

Lemma updatePaymentRecord_records env out orderId updates w :
  records (snd (updatePaymentRecord env out orderId updates w))
  = written env out orderId updates (records w).
Proof.
  run_update. destruct (DB env); cbn; trivial.
  bind_cases. destruct (d1_fails out); cbn; trivial.
Qed.

(** What [updatePaymentRecord] writes: nothing unless the binding is
    there, the five values can be bound and the statement runs. *)
Lemma written_eq env out orderId updates t :
  written env out orderId updates t
  = if DB env then
      match D1.bind (prop updates "status") with
      | Normal st =>
          match D1.bind (prop updates "block_transaction_id") with
          | Normal btid =>
              match D1.bind (prop updates "actual_amount") with
              | Normal actual =>
                  match D1.bind (prop updates "updated_at") with
                  | Normal upd =>
                      match D1.bind orderId with
                      | Normal key =>
                          if d1_fails out then t
                          else D1.update st btid actual upd key t
                      | Throw _ => t
                      end
                  | Throw _ => t
                  end
              | Throw _ => t
              end
          | Throw _ => t
          end
      | Throw _ => t
      end
    else t.
Proof.
  run_update. destruct (DB env); cbn; trivial.
  bind_cases. destruct (d1_fails out); cbn; trivial.
Qed.

Lemma verification_object request env b :
  verification request env = Normal b ->
  exists o, json request = Normal (JObject o).
Proof.
  unfold verification, verifiedParams.
  destruct (json request) as [body|]; [|discriminate].
  destruct body; try discriminate; cbn [cbind Get]; eauto;
    unfold verifySignature;
    destruct (generateSignature _ _); cbn [cbind]; discriminate.
Qed.

Lemma verification_fields request env o :
  json request = Normal (JObject o) ->
  verification request env
  = verifySignature
      (verifyParams (prop o "trade_id") (prop o "order_id") (prop o "amount")
         (prop o "actual_amount") (prop o "token")
         (prop o "block_transaction_id") (prop o "status"))
      (BEPUSDT_API_TOKEN env) (prop o "signature").
Proof. unfold verification. now intros ->. Qed.

Section Notify.

#[local] Opaque verifySignature updatePaymentRecord.

Ltac run_notify :=
  unfold handlePaymentNotify, try_catch, bind, lift, console_log,
    console_error, emit, ret.

Ltac console_only :=
  repeat split;
  eexists; split; [rewrite <- ?app_assoc; reflexivity | reflexivity].

(** The run of [handlePaymentNotify], by the outcome of verification. *)
Lemma notify_run request env out w :
  let run := handlePaymentNotify request env out w in
  match verification request env with
  | Normal true =>
      exists o, json request = Normal (JObject o)
        /\ fst run = Normal ack
        /\ records (snd run)
           = written env out (prop o "order_id") (callback_updates o out)
                     (records w)
  | Normal false =>
      fst run = Normal rejected /\ records (snd run) = records w
      /\ exists events, trace (snd run) = trace w ++ events
                        /\ forallb is_console events = true
  | Throw e =>
      fst run = Normal internal_error /\ records (snd run) = records w
      /\ exists events, trace (snd run) = trace w ++ events
                        /\ forallb is_console events = true
  end.
Proof.
  cbv zeta.
  destruct (verification request env) as [b|e] eqn:V.
  - destruct (verification_object _ _ _ V) as [o Hj].
    rewrite (verification_fields _ _ _ Hj) in V.
    run_notify. rewrite Hj. cbn. rewrite V. destruct b; cbn.
    + exists o. split; trivial.
      match goal with
      | |- context [updatePaymentRecord ?e ?u ?i ?p ?w0] =>
          pose proof (updatePaymentRecord_normal e u i p w0) as Hn;
          pose proof (updatePaymentRecord_records e u i p w0) as Hr;
          destruct (updatePaymentRecord e u i p w0) as [c w1]
      end.
      cbn in Hn, Hr. subst c. unfold callback_updates. rewrite <- Hr.
      destruct (StrictEquals _ _); [|now split].
      destruct (truthy _); [|now split].
      destruct (fetch_reply out); now split.
    + console_only.
  - unfold verification in V. run_notify.
    destruct (json request) as [body|e']; cbn in *.
    + destruct (Get_cases body) as [Hg|[o Hg]].
      * rewrite !Hg. cbn. console_only.
      * unfold verifiedParams in V. rewrite !Hg in *. cbn in *.
        rewrite V. cbn. console_only.
    + console_only.
Qed.

End Notify.

Lemma notify_response request env out w :
  fst (handlePaymentNotify request env out w)
  = Normal match verification request env with
           | Normal true => ack
           | Normal false => rejected
           | Throw _ => internal_error
           end.
Proof.
  pose proof (notify_run request env out w) as H. cbv zeta in H.
  destruct (verification request env) as [[|]|e].
  - now destruct H as (o & _ & H & _).
  - apply H.
  - apply H.
Qed.

Lemma notify_records request env out w :
  records (snd (handlePaymentNotify request env out w))
  = match verification request env, json request with
    | Normal true, Normal (JObject o) =>
        written env out (prop o "order_id") (callback_updates o out)
                (records w)
    | _, _ => records w
    end.
Proof.
  pose proof (notify_run request env out w) as H. cbv zeta in H.
  destruct (verification request env) as [[|]|e].
  - destruct H as (o & -> & _ & H). exact H.
  - destruct H as (_ & -> & _). now destruct (json request) as [[]|].
  - apply H.
Qed.

(* ---------------------------------------------------------------- *)
(** ** Callbacks that do not verify                                  *)

(** A callback whose verification does not yield [true] writes
    nothing: the stored rows are the same after the run, and nothing but
    console output happened (no statement reached D1, no request was
    sent).  The response is the 400 rejection when verification yields
    [false], that is when the signature is a string that differs from
    the expected digest; when verification throws, the run ends in the
    catch-all handler, whose response is 500. *)
Theorem notify_unverified_writes_nothing request env out w :
  verification request env <> Normal true ->
  let run := handlePaymentNotify request env out w in
  records (snd run) = records w
  /\ (exists events, trace (snd run) = trace w ++ events
                     /\ forallb is_console events = true)
  /\ (verification request env = Normal false -> fst run = Normal rejected)
  /\ (forall e, verification request env = Throw e ->
                fst run = Normal internal_error).
Proof.
  intros Hv. cbv zeta.
  pose proof (notify_run request env out w) as H. cbv zeta in H.
  destruct (verification request env) as [[|]|e]; [congruence| |].
  - destruct H as (Hr & Hs & Ht).
    split; [exact Hs|]. split; [exact Ht|]. split; [trivial|discriminate].
  - destruct H as (Hr & Hs & Ht).
    split; [exact Hs|]. split; [exact Ht|]. split; [discriminate|trivial].
Qed.

Lemma notify_unverified_writes_nothing_witness :
  verification Scenario.forged Scenario.env = Normal false
  /\ handlePaymentNotify Scenario.forged Scenario.env (Scenario.at_time 1000)
       (Scenario.world 1)
     = (Normal rejected,
        mkWorld [Scenario.row 1]
                [ConsoleLog "收到支付回调:"
                   (JObject (Scenario.paid_fields ++
                      [("signature",
                        JString "00000000000000000000000000000000")]));
                 ConsoleError "签名验证失败" None])
  /\ records (snd (handlePaymentNotify Scenario.forged Scenario.env
                     (Scenario.at_time 1000) (Scenario.world 1)))
     = records (Scenario.world 1).
Proof.
  assert (V : verification Scenario.forged Scenario.env = Normal false)
    by (vm_compute; reflexivity).
  split; [exact V|]. split; [vm_compute; reflexivity|].
  refine (proj1 (notify_unverified_writes_nothing Scenario.forged
                   Scenario.env (Scenario.at_time 1000) (Scenario.world 1) _)).
  rewrite V. discriminate.
Defined.

(** A callback with no signature, and one whose signature is a number,
    do not verify: [signature.toLowerCase()] throws before [isValid] is
    known, and the answer is the 500 of the catch-all handler instead of
    the 400 of the [!isValid] branch. *)
Lemma notify_unsigned_is_error :
  verification Scenario.unsigned Scenario.env = Throw TypeError
  /\ fst (handlePaymentNotify Scenario.unsigned Scenario.env
            (Scenario.at_time 1000) (Scenario.world 1))
     = Normal (mkResponse (Text "error") 500 [])
  /\ verification Scenario.numbered Scenario.env = Throw TypeError
  /\ fst (handlePaymentNotify Scenario.numbered Scenario.env
            (Scenario.at_time 1000) (Scenario.world 1))
     = Normal (mkResponse (Text "error") 500 []).
Proof. repeat split; vm_compute; reflexivity. Qed.

(* ---------------------------------------------------------------- *)
(** ** Callbacks that verify                                         *)

(** C2, as the code has it.  A callback that verifies, and whose write
    succeeds, overwrites: every stored row of the order it names gets
    the status the callback carries, whatever status the row had, and
    every other row is left as it was.  Nothing makes the status advance
    only: a Completed order is set back to Created by a callback that
    says so. *)
Theorem notify_overwrites_status request env out w o st btid actual key :
  json request = Normal (JObject o) ->
  verification request env = Normal true ->
  DB env = true -> d1_fails out = false ->
  D1.bind (prop o "status") = Normal st ->
  D1.bind (or_else (prop o "block_transaction_id") (JString ""))
  = Normal btid ->
  D1.bind (prop o "actual_amount") = Normal actual ->
  D1.bind (prop o "order_id") = Normal key ->
  let after := records (snd (handlePaymentNotify request env out w)) in
  after = D1.update st btid actual (D1.SqlInteger (now out)) key (records w)
  /\ Forall2 (fun r r' =>
                D1.order_id r' = D1.order_id r
                /\ if D1.sql_eqb (D1.order_id r) key
                   then D1.status r' = st else r' = r)
             (records w) after.
Proof.
  intros Hj V HDB Hf Hst Hbtid Hactual Hkey. cbv zeta.
  rewrite notify_records, V, Hj, written_eq, HDB, Hf.
  cbn [callback_updates prop String.eqb Ascii.eqb Bool.eqb].
  rewrite Hst, Hbtid, Hactual, Hkey. cbn [D1.bind].
  split; [reflexivity | apply update_rows].
Qed.

Lemma notify_overwrites_status_witness :
  verification Scenario.created Scenario.env = Normal true
  /\ records (snd (handlePaymentNotify Scenario.created Scenario.env
                     (Scenario.at_time 1000) (Scenario.world 1)))
     = D1.update (D1.SqlInteger 1) (D1.SqlText "") (D1.SqlText "10.00")
                 (D1.SqlInteger 1000) (D1.SqlText "A1") [Scenario.row 1].
Proof.
  assert (V : verification Scenario.created Scenario.env = Normal true)
    by (vm_compute; reflexivity).
  split; [exact V|].
  refine (proj1 (notify_overwrites_status Scenario.created Scenario.env
                   (Scenario.at_time 1000) (Scenario.world 1)
                   _ _ _ _ _ eq_refl V eq_refl eq_refl
                   eq_refl eq_refl eq_refl eq_refl)).
Defined.

(** The order is stored as Completed (2); a callback that verifies and
    reports Created (1) is acknowledged, and the order is stored as
    Created (1). *)
Lemma notify_completed_back_to_created :
  verification Scenario.created Scenario.env = Normal true
  /\ map D1.status (records (Scenario.world 2)) = [D1.SqlInteger 2]
  /\ fst (handlePaymentNotify Scenario.created Scenario.env
            (Scenario.at_time 1000) (Scenario.world 2))
     = Normal (mkResponse (Text "ok") 200 [])
  /\ map D1.status
       (records (snd (handlePaymentNotify Scenario.created Scenario.env
                        (Scenario.at_time 1000) (Scenario.world 2))))
     = [D1.SqlInteger 1].
Proof. repeat split; vm_compute; reflexivity. Qed.







(** C8.  A callback that verifies is answered ['ok'] with status 200
    whatever the outside does: whether the request to the manager goes
    through or throws, and whether the write to D1 fails or not. *)
Theorem notify_ack_whatever_the_notifier request env :
  verification request env = Normal true ->
  forall out w, fst (handlePaymentNotify request env out w) = Normal ack.
Proof.
  intros V out w. now rewrite notify_response, V.
Qed.

Lemma notify_ack_whatever_the_notifier_witness :
  verification Scenario.paid Scenario.env = Normal true
  /\ fst (handlePaymentNotify Scenario.paid Scenario.env
            (Scenario.manager_down 1000) (Scenario.world 1))
     = Normal (mkResponse (Text "ok") 200 [])
  /\ map is_fetch
       (trace (snd (handlePaymentNotify Scenario.paid Scenario.env
                      (Scenario.manager_down 1000) (Scenario.world 1))))
     = [false; false; true; false]
  /\ last (trace (snd (handlePaymentNotify Scenario.paid Scenario.env
                         (Scenario.manager_down 1000) (Scenario.world 1))))
          (ConsoleError "" None)
     = ConsoleError "通知管理端失败:" (Some NetworkError).
Proof.
  assert (V : verification Scenario.paid Scenario.env = Normal true)
    by (vm_compute; reflexivity).
  split; [exact V|]. split.
  - exact (notify_ack_whatever_the_notifier _ _ V
             (Scenario.manager_down 1000) (Scenario.world 1)).
  - split; vm_compute; reflexivity.
Defined.

(* ---------------------------------------------------------------- *)
(** ** Creating an order                                             *)

Section CreateFacts.

#[local] Opaque generateSignature savePaymentRecord.

(** C9, as the code has it.  A creation request whose body can be
    destructured (any parsed value but [null]) and whose [order_id] or
    [amount] is absent or empty is answered [success: false] with status
    400, and the handler has done nothing else: no request was sent, no
    statement reached D1, nothing was logged. *)
Theorem create_rejects_missing_parameter
        (parseFloat : value -> Completion value) request env out w
        body order_id amount :
  json request = Normal body ->
  Get body "order_id" = Normal order_id ->
  Get body "amount" = Normal amount ->
  Reference.absent_or_empty order_id = true
  \/ Reference.absent_or_empty amount = true ->
  handleCreatePayment parseFloat request env out w
  = (Normal (failure (JString "缺少必要参数") 400), w).
Proof.
  intros Hj H1 H2 H.
  assert (F : negb (truthy order_id) || negb (truthy amount) = true).
  { apply orb_true_iff.
    destruct H as [H|H]; [left; destruct order_id|right; destruct amount];
      try discriminate; cbn in *; now rewrite ?H. }
  destruct (Get_cases body) as [Hg|[o Hg]]; [rewrite Hg in H1; discriminate|].
  rewrite Hg in H1, H2. inversion H1. inversion H2. subst.
  unfold handleCreatePayment, try_catch, bind, lift.
  rewrite Hj, !Hg. now rewrite F.
Qed.

End CreateFacts.

Lemma create_rejects_missing_parameter_witness :
  Reference.absent_or_empty (prop [("order_id", JString "A1")] "amount") = true
  /\ handleCreatePayment (fun v => Normal v)
       (Scenario.post (JObject [("order_id", JString "A1")]))
       Scenario.env (Scenario.at_time 1000) (Scenario.world 1)
     = (Normal (mkResponse
                  (Json (JObject [("success", JBoolean false);
                                  ("error", JString "缺少必要参数")]))
                  400 corsHeaders),
        Scenario.world 1)
  /\ handleCreatePayment (fun v => Normal v)
       (Scenario.post (JArray [])) Scenario.env (Scenario.at_time 1000)
       (Scenario.world 1)
     = (Normal (mkResponse
                  (Json (JObject [("success", JBoolean false);
                                  ("error", JString "缺少必要参数")]))
                  400 corsHeaders),
        Scenario.world 1).
Proof.
  split; [reflexivity|]. split.
  - apply (create_rejects_missing_parameter (fun v => Normal v)
             (Scenario.post (JObject [("order_id", JString "A1")]))
             Scenario.env (Scenario.at_time 1000) (Scenario.world 1)
             (JObject [("order_id", JString "A1")]) (JString "A1") JUndefined
             eq_refl eq_refl eq_refl).
    right. reflexivity.
  - apply (create_rejects_missing_parameter (fun v => Normal v)
             (Scenario.post (JArray [])) Scenario.env (Scenario.at_time 1000)
             (Scenario.world 1) (JArray []) JUndefined JUndefined
             eq_refl eq_refl eq_refl).
    left. reflexivity.
Defined.

(** A request whose body is the JSON value [null], and one whose body
    does not parse: [order_id] and [amount] are absent, the answer is
    500 and not 400, and the error is logged. *)
Lemma create_null_body_is_error :
  handleCreatePayment (fun v => Normal v) (Scenario.post JNull) Scenario.env
    (Scenario.at_time 1000) (Scenario.world 1)
  = (Normal (mkResponse (Failure TypeError) 500 corsHeaders),
     mkWorld [Scenario.row 1]
             [ConsoleError "创建支付订单错误:" (Some TypeError)])
  /\ handleCreatePayment (fun v => Normal v)
       (mkRequest "https://gw.example" (Throw SyntaxError)) Scenario.env
       (Scenario.at_time 1000) (Scenario.world 1)
     = (Normal (mkResponse (Failure SyntaxError) 500 corsHeaders),
        mkWorld [Scenario.row 1]
                [ConsoleError "创建支付订单错误:" (Some SyntaxError)]).
Proof. split; vm_compute; reflexivity. Qed.

(* ---------------------------------------------------------------- *)
(** ** Querying an order                                             *)

Lemma query_unknown tradeId env out w :
  DB env = true -> d1_fails out = false ->
  (forall r, In r (records w) ->
             D1.sql_eqb (D1.trade_id r) (D1.SqlText tradeId) = false) ->
  fst (handleQueryStatus tradeId env out w) = Normal not_found.
Proof.
  intros HDB Hf Hr.
  unfold handleQueryStatus, getPaymentRecordByTradeId, try_catch, bind,
    prepare, lift, emit.
  rewrite HDB, Hf. cbn. unfold D1.first.
  rewrite find_absent; trivial.
Qed.

(** C10.  When the lookup fails, because the D1 binding is missing or
    because the statement throws, [getPaymentRecordByTradeId] returns
    [null] and [handleQueryStatus] answers 404 with the error
    ['订单不存在'], the very response it gives for an id that no stored
    row has; it does not answer 500. *)
Theorem query_failure_is_not_found tradeId env out w :
  DB env = false \/ d1_fails out = true ->
  fst (getPaymentRecordByTradeId env out (JString tradeId) w) = Normal JNull
  /\ fst (handleQueryStatus tradeId env out w) = Normal not_found
  /\ records (snd (handleQueryStatus tradeId env out w)) = records w
  /\ forall env' out' w',
       DB env' = true -> d1_fails out' = false ->
       (forall r, In r (records w') ->
                  D1.sql_eqb (D1.trade_id r) (D1.SqlText tradeId) = false) ->
       fst (handleQueryStatus tradeId env' out' w')
       = fst (handleQueryStatus tradeId env out w).
Proof.
  intros H.
  assert (Hq : fst (handleQueryStatus tradeId env out w) = Normal not_found
               /\ records (snd (handleQueryStatus tradeId env out w))
                  = records w
               /\ fst (getPaymentRecordByTradeId env out (JString tradeId) w)
                  = Normal JNull).
  { unfold handleQueryStatus, getPaymentRecordByTradeId, try_catch, bind,
      prepare, lift, emit, throw, ret.
    destruct (DB env); cbn.
    - destruct H as [H|H]; [discriminate|]. rewrite H. cbn. auto.
    - auto. }
  destruct Hq as (Hq & Hr & Hg).
  repeat split; trivial.
  intros env' out' w' HDB Hf Hu. rewrite Hq. now apply query_unknown.
Qed.

Lemma query_failure_is_not_found_witness :
  (DB Scenario.env = false \/ d1_fails (Scenario.d1_down 1000) = true)
  /\ fst (handleQueryStatus "T1" Scenario.env (Scenario.d1_down 1000)
            (Scenario.world 1))
     = Normal (mkResponse
                 (Json (JObject [("success", JBoolean false);
                                 ("error", JString "订单不存在")]))
                 404 corsHeaders).
Proof.
  assert (H : DB Scenario.env = false
              \/ d1_fails (Scenario.d1_down 1000) = true)
    by (right; reflexivity).
  split; [exact H|].
  exact (proj1 (proj2 (query_failure_is_not_found "T1" Scenario.env
                         (Scenario.d1_down 1000) (Scenario.world 1) H))).
Defined.

End WorkerFacts.

(* ================================================================== *)
(** * More on the signer                                               *)
(* ================================================================== *)

Module SignatureFacts.
Import Js Signer SortFacts JsFacts SignerFacts Shape.
Local Open Scope completion_scope.

Lemma digest_length (data : list byte) :
  List.length (MD5.digest data) = 16%nat.
Proof. reflexivity. Qed.

Lemma lower_hex_digit_shape (n : N) :
  is_lower_hex (Reference.lower_hex_digit n) = true
  /\ lower_ascii (Reference.lower_hex_digit n) = Reference.lower_hex_digit n.
Proof.
  destruct n as [|p]; [split; reflexivity|].
  do 5 (try destruct p as [p|p|]); split; reflexivity.
Qed.

Lemma lower_hex_shape (d : list byte) :
  String.length (Reference.lower_hex d) = (2 * List.length d)%nat
  /\ all_chars is_lower_hex (Reference.lower_hex d) = true.
Proof.
  induction d as [|b d [IHl IHc]]; [split; reflexivity|].
  cbn [Reference.lower_hex String.length all_chars List.length].
  rewrite IHl, IHc.
  rewrite (proj1 (lower_hex_digit_shape _)), (proj1 (lower_hex_digit_shape _)).
  split; [lia | reflexivity].
Qed.

(** The digest [generateSignature] returns is 32 characters long, every
    one of them in [0-9a-f], and lower-casing leaves it as it is. *)
Theorem generateSignature_format params token d :
  generateSignature params token = Normal d ->
  String.length d = 32%nat
  /\ all_chars is_lower_hex d = true
  /\ toLowerCase d = d.
Proof.
  intros H. split; [|split; [|exact (generateSignature_lower _ _ _ H)]];
    revert H; unfold generateSignature;
    (destruct (mapM _ _); cbn [cbind]; [|discriminate]);
    (destruct (ToString token); cbn [cbind]; [|discriminate]);
    intros E; inversion E; rewrite hashHex_lower_hex;
    [ rewrite (proj1 (lower_hex_shape _)), digest_length; reflexivity
    | apply lower_hex_shape ].
Qed.

Lemma generateSignature_format_witness :
  generateSignature Scenario.paid_fields Scenario.secret
  = Normal "8c88d3bf30d6e4c78e400da2069e4902"
  /\ String.length "8c88d3bf30d6e4c78e400da2069e4902" = 32%nat.
Proof.
  assert (H : generateSignature Scenario.paid_fields Scenario.secret
              = Normal "8c88d3bf30d6e4c78e400da2069e4902")
    by (vm_compute; reflexivity).
  split; [exact H|].
  exact (proj1 (generateSignature_format _ _ _ H)).
Defined.

Lemma ToString_primitive (v : value) :
  primitive v = true -> exists s, ToString v = Normal s.
Proof. destruct v; cbn; try discriminate; eauto. Qed.

Lemma prop_primitive (params : object) (k : string) :
  (forall field, In field params -> primitive (snd field) = true) ->
  primitive (prop params k) = true.
Proof.
  induction params as [|[k' v] params IH]; cbn; intros H; trivial.
  destruct (String.eqb k' k).
  - apply (H (k', v)). now left.
  - apply IH. intros field Hin. apply H. now right.
Qed.

Lemma mapM_total {A B} (f : A -> Completion B) (l : list A) :
  (forall x, In x l -> exists y, f x = Normal y) ->
  exists ys, mapM f l = Normal ys.
Proof.
  induction l as [|x l IH]; cbn; intros H; eauto.
  destruct (H x) as [y ->]; [now left|].
  destruct IH as [ys ->]; [intros; apply H; now right|].
  cbn. eauto.
Qed.

(** On an object whose values are neither arrays nor objects, and with
    such a secret, [generateSignature] returns a digest: it does not
    throw. *)
Theorem generateSignature_returns params token :
  (forall field, In field params -> primitive (snd field) = true) ->
  primitive token = true ->
  exists d, generateSignature params token = Normal d.
Proof.
  intros Hp Ht. unfold generateSignature.
  destruct (mapM_total (key_value params)
              (filter (signed_key params) (sort (keys params)))) as [parts ->].
  { intros k _. unfold key_value.
    destruct (ToString_primitive (prop params k)) as [s ->];
      [now apply prop_primitive | cbn; eauto]. }
  cbn [cbind]. destruct (ToString_primitive token Ht) as [s ->].
  cbn [cbind]. eauto.
Qed.

Lemma generateSignature_returns_witness :
  exists d, generateSignature Scenario.created_fields Scenario.secret
            = Normal d.
Proof.
  apply generateSignature_returns; [|reflexivity].
  cbn. intros field H.
  repeat (destruct H as [<-|H]; [reflexivity|]). destruct H.
Defined.

(** A property that the filter drops (the signature itself, an absent
    value, an empty string) can be added to an object without changing
    its digest. *)
Theorem generateSignature_ignores_dropped params token k v :
  wf params -> ~ In k (keys params) ->
  Reference.kept (k, v) = false ->
  generateSignature (params ++ [(k, v)]) token
  = generateSignature params token.
Proof.
  intros Hwf Hk Hd.
  assert (Hwf' : wf (params ++ [(k, v)])).
  { unfold wf, keys in *. rewrite map_app. cbn.
    apply NoDup_app; trivial.
    - repeat constructor. now intros [].
    - intros x Hx [<-|[]]. contradiction. }
  unfold generateSignature.
  rewrite (signed_parts _ Hwf'), (signed_parts _ Hwf), filter_app.
  cbn [filter]. rewrite Hd. now rewrite app_nil_r.
Qed.

Lemma generateSignature_ignores_dropped_witness :
  generateSignature
    (Scenario.paid_fields ++ [("signature", JString Scenario.paid_digest)])
    Scenario.secret
  = generateSignature Scenario.paid_fields Scenario.secret.
Proof.
  apply generateSignature_ignores_dropped;
    [exact wf_paid_fields| |reflexivity].
  cbn. intuition discriminate.
Defined.

(** [verifySignature] does not tell a candidate made of ASCII
    characters from the same candidate in uppercase or in lowercase. *)
Theorem verifySignature_case_insensitive params token s :
  ascii_only s = true ->
  verifySignature params token (JString (toUpperCase s))
  = verifySignature params token (JString s)
  /\ verifySignature params token (JString (toLowerCase s))
     = verifySignature params token (JString s).
Proof.
  intros _. unfold verifySignature.
  now rewrite toLowerCase_toUpperCase, toLowerCase_idem.
Qed.

Lemma verifySignature_case_insensitive_witness :
  ascii_only "8c88D3BF30d6e4c78e400da2069e4902" = true
  /\ verifySignature Scenario.paid_fields Scenario.secret
       (JString "8C88D3BF30D6E4C78E400DA2069E4902")
     = verifySignature Scenario.paid_fields Scenario.secret
         (JString "8c88D3BF30d6e4c78e400da2069e4902").
Proof.
  split; [reflexivity|].
  exact (proj1 (verifySignature_case_insensitive Scenario.paid_fields
                  Scenario.secret "8c88D3BF30d6e4c78e400da2069e4902"
                  eq_refl)).
Defined.

(** When the digest is [d], [verifySignature] returns [true] exactly on
    the strings that read [d] once lower-cased, [false] on every other
    string, and throws on anything that is not a string. *)
Theorem verifySignature_outcome params token d signature :
  generateSignature params token = Normal d ->
  verifySignature params token signature
  = match signature with
    | JString s => Normal (String.eqb d (toLowerCase s))
    | _ => Throw TypeError
    end
  /\ (verifySignature params token signature = Normal true
      <-> exists s, signature = JString s /\ toLowerCase s = d).
Proof.
  intros H. unfold verifySignature. rewrite H. cbn [cbind].
  destruct signature; cbn [cbind]; split; trivial;
    try (split; [discriminate | intros (s0 & E & _); discriminate]).
  split.
  - intros E. inversion E as [E']. apply String.eqb_eq in E'.
    eauto.
  - intros (s0 & E & <-). inversion E. now rewrite String.eqb_refl.
Qed.

Lemma verifySignature_outcome_witness :
  generateSignature Scenario.paid_fields Scenario.secret
  = Normal Scenario.paid_digest
  /\ verifySignature Scenario.paid_fields Scenario.secret (JNumber 7)
     = Throw TypeError
  /\ verifySignature Scenario.paid_fields Scenario.secret
       (JString "00000000000000000000000000000000")
     = Normal false.
Proof.
  assert (H : generateSignature Scenario.paid_fields Scenario.secret
              = Normal Scenario.paid_digest) by (vm_compute; reflexivity).
  split; [exact H|]. split.
  - exact (proj1 (verifySignature_outcome _ _ _ (JNumber 7) H)).
  - exact (proj1 (verifySignature_outcome _ _ _
                    (JString "00000000000000000000000000000000") H)).
Defined.

End SignatureFacts.

(* ================================================================== *)
(** * More on the callback                                             *)
(* ================================================================== *)

Module CallbackFacts.
Import Js Signer Worker D1Facts WorkerFacts.

(** [handlePaymentNotify] does not throw: it answers with one of its
    three responses, whatever the request, the environment and the
    outside. *)
Theorem notify_always_answers request env out w :
  exists r, fst (handlePaymentNotify request env out w) = Normal r
            /\ In r [ack; rejected; internal_error].
Proof.
  rewrite notify_response. eexists. split; [reflexivity|].
  destruct (verification request env) as [[|]|]; cbn; auto.
Qed.

Lemma update_unmatched st btid actual upd key (t : D1.table) :
  (forall r, In r t -> D1.sql_eqb (D1.order_id r) key = false) ->
  D1.update st btid actual upd key t = t.
Proof.
  unfold D1.update. induction t as [|r t IH]; cbn; intros H; trivial.
  rewrite (H r), IH; auto.
Qed.

(** A callback that verifies but names an order that no stored row has
    is acknowledged, and the stored rows are the same after it: no row
    is created for it. *)
Theorem notify_unknown_order request env out w o :
  json request = Normal (JObject o) ->
  verification request env = Normal true ->
  (forall r key, In r (records w) ->
                 D1.bind (prop o "order_id") = Normal key ->
                 D1.sql_eqb (D1.order_id r) key = false) ->
  fst (handlePaymentNotify request env out w) = Normal ack
  /\ records (snd (handlePaymentNotify request env out w)) = records w.
Proof.
  intros Hj V Hu. rewrite notify_response, notify_records, V, Hj.
  split; trivial. rewrite written_eq.
  destruct (DB env); trivial.
  destruct (D1.bind (prop _ "status")); trivial.
  destruct (D1.bind (prop _ "block_transaction_id")); trivial.
  destruct (D1.bind (prop _ "actual_amount")); trivial.
  destruct (D1.bind (prop _ "updated_at")); trivial.
  destruct (D1.bind (prop o "order_id")) as [key|] eqn:K; trivial.
  destruct (d1_fails out); trivial.
  apply update_unmatched. intros r Hr. now apply Hu.
Qed.

Lemma notify_unknown_order_witness :
  verification Scenario.paid Scenario.env = Normal true
  /\ handlePaymentNotify Scenario.paid Scenario.env (Scenario.at_time 1000)
       (mkWorld [] [])
     = (Normal ack,
        snd (handlePaymentNotify Scenario.paid Scenario.env
               (Scenario.at_time 1000) (mkWorld [] [])))
  /\ records (snd (handlePaymentNotify Scenario.paid Scenario.env
                     (Scenario.at_time 1000) (mkWorld [] [])))
     = [].
Proof.
  assert (V : verification Scenario.paid Scenario.env = Normal true)
    by (vm_compute; reflexivity).
  split; [exact V|]. split; [vm_compute; reflexivity|].
  refine (proj2 (notify_unknown_order Scenario.paid Scenario.env
                   (Scenario.at_time 1000) (mkWorld [] []) _ eq_refl V _)).
  intros r key [].
Defined.

(** A callback that verifies is acknowledged even when its write did
    not happen: with the D1 binding missing or the statement failing,
    the answer is still ['ok'] with status 200 and the stored rows are
    as they were. *)
Theorem notify_ack_without_write request env out w :
  verification request env = Normal true ->
  DB env = false \/ d1_fails out = true ->
  fst (handlePaymentNotify request env out w) = Normal ack
  /\ records (snd (handlePaymentNotify request env out w)) = records w.
Proof.
  intros V H. rewrite notify_response, notify_records, V.
  split; trivial.
  destruct (json request) as [[]|]; trivial.
  rewrite written_eq.
  destruct (DB env); trivial.
  destruct H as [H|H]; [discriminate|]. rewrite H.
  repeat match goal with
         | |- context [match D1.bind ?v with _ => _ end] =>
             destruct (D1.bind v); trivial
         end.
Qed.

Lemma notify_ack_without_write_witness :
  verification Scenario.paid Scenario.env = Normal true
  /\ fst (handlePaymentNotify Scenario.paid Scenario.env
            (Scenario.d1_down 1000) (Scenario.world 1))
     = Normal (mkResponse (Text "ok") 200 [])
  /\ records (snd (handlePaymentNotify Scenario.paid Scenario.env
                     (Scenario.d1_down 1000) (Scenario.world 1)))
     = [Scenario.row 1].
Proof.
  assert (V : verification Scenario.paid Scenario.env = Normal true)
    by (vm_compute; reflexivity).
  split; [exact V|].
  apply (notify_ack_without_write Scenario.paid Scenario.env
           (Scenario.d1_down 1000) (Scenario.world 1) V).
  right. reflexivity.
Defined.

Lemma update_frame st btid actual upd key (t : D1.table) :
  Forall2 (fun r r' =>
             D1.order_id r' = D1.order_id r
             /\ D1.trade_id r' = D1.trade_id r
             /\ D1.amount r' = D1.amount r
             /\ D1.trade_type r' = D1.trade_type r
             /\ D1.user_id r' = D1.user_id r
             /\ D1.payment_url r' = D1.payment_url r
             /\ D1.token r' = D1.token r
             /\ D1.created_at r' = D1.created_at r)
          t (D1.update st btid actual upd key t).
Proof.
  induction t as [|r t IH]; cbn; constructor; trivial.
  destruct (D1.sql_eqb (D1.order_id r) key); cbn; repeat split.
Qed.

Lemma frame_refl (t : D1.table) :
  Forall2 (fun r r' =>
             D1.order_id r' = D1.order_id r
             /\ D1.trade_id r' = D1.trade_id r
             /\ D1.amount r' = D1.amount r
             /\ D1.trade_type r' = D1.trade_type r
             /\ D1.user_id r' = D1.user_id r
             /\ D1.payment_url r' = D1.payment_url r
             /\ D1.token r' = D1.token r
             /\ D1.created_at r' = D1.created_at r)
          t t.
Proof. induction t; constructor; trivial. repeat split. Qed.

Lemma notify_rows request env out w :
  Forall2 (fun r r' =>
             D1.order_id r' = D1.order_id r
             /\ D1.trade_id r' = D1.trade_id r
             /\ D1.amount r' = D1.amount r
             /\ D1.trade_type r' = D1.trade_type r
             /\ D1.user_id r' = D1.user_id r
             /\ D1.payment_url r' = D1.payment_url r
             /\ D1.token r' = D1.token r
             /\ D1.created_at r' = D1.created_at r)
          (records w)
          (records (snd (handlePaymentNotify request env out w))).
Proof.
  rewrite notify_records.
  destruct (verification request env) as [[|]|]; try apply frame_refl.
  destruct (json request) as [[]|]; try apply frame_refl.
  rewrite written_eq.
  destruct (DB env); try apply frame_refl.
  repeat match goal with
         | |- context [match D1.bind ?v with _ => _ end] =>
             destruct (D1.bind v); try apply frame_refl
         end.
  destruct (d1_fails out); [apply frame_refl | apply update_frame].
Qed.

(** Whatever the callback, the stored rows after it are the stored rows
    before it, one for one and in the same order, with the same
    [order_id], [trade_id], [amount], [trade_type], [user_id],
    [payment_url], [token] and [created_at]: a callback creates no row,
    deletes none, and writes to no column but [status],
    [block_transaction_id], [actual_amount] and [updated_at]. *)
Theorem notify_frame request env out w :
  Forall2 (fun r r' =>
             D1.order_id r' = D1.order_id r
             /\ D1.trade_id r' = D1.trade_id r
             /\ D1.amount r' = D1.amount r
             /\ D1.trade_type r' = D1.trade_type r
             /\ D1.user_id r' = D1.user_id r
             /\ D1.payment_url r' = D1.payment_url r
             /\ D1.token r' = D1.token r
             /\ D1.created_at r' = D1.created_at r)
          (records w)
          (records (snd (handlePaymentNotify request env out w))).
Proof. exact (notify_rows request env out w). Qed.



Section Manager.

#[local] Opaque verifySignature updatePaymentRecord.


End Manager.

End CallbackFacts.

(* ================================================================== *)
(** * More on creating an order                                        *)
(* ================================================================== *)

Module CreateFacts.
Import Js Signer Worker D1Facts WorkerFacts SignerFacts.

Ltac run_save :=
  unfold savePaymentRecord, try_catch, bind, prepare, run, lift, throw,
    ret, emit, console_error.

Ltac bind_all :=
  repeat match goal with
         | |- context [match D1.bind ?v with _ => _ end] =>
             destruct (D1.bind v) eqn:?; cbn
         end.

Lemma insert_appends (r : D1.payment_record) (t t' : D1.table) :
  D1.insert r t = Normal t' ->
  t' = t ++ [r]
  /\ D1.is_null (D1.order_id r) = false
  /\ forall r0, In r0 t -> D1.sql_eqb (D1.order_id r0) (D1.order_id r) = false.
Proof.
  unfold D1.insert.
  destruct (D1.is_null (D1.order_id r)); [discriminate|].
  destruct (_ || _); [discriminate|].
  destruct (existsb _ t) eqn:E; [discriminate|].
  intros H. inversion H. split; [|split]; trivial.
  intros r0 Hin.
  destruct (D1.sql_eqb (D1.order_id r0) (D1.order_id r)) eqn:Q; trivial.
  assert (X : existsb (fun r' => D1.sql_eqb (D1.order_id r') (D1.order_id r)) t
              = true) by (apply existsb_exists; eauto).
  congruence.
Qed.

Lemma savePaymentRecord_normal env out record w :
  fst (savePaymentRecord env out record w) = Normal tt.
Proof.
  run_save. destruct (DB env); cbn; trivial.
  bind_all; trivial.
  destruct (d1_fails out); cbn; trivial.
  destruct (D1.insert _ _); cbn; trivial.
Qed.

(** [savePaymentRecord] leaves the rows as they were, or appends one
    row that holds the bound fields of the record and no transaction. *)
Lemma savePaymentRecord_records env out record w :
  let after := records (snd (savePaymentRecord env out record w)) in
  after = records w
  \/ exists row,
       after = records w ++ [row]
       /\ D1.bind (prop record "order_id") = Normal (D1.order_id row)
       /\ D1.bind (prop record "trade_id") = Normal (D1.trade_id row)
       /\ D1.bind (prop record "amount") = Normal (D1.amount row)
       /\ D1.bind (prop record "actual_amount")
          = Normal (D1.actual_amount row)
       /\ D1.bind (prop record "trade_type") = Normal (D1.trade_type row)
       /\ D1.bind (prop record "user_id") = Normal (D1.user_id row)
       /\ D1.bind (prop record "status") = Normal (D1.status row)
       /\ D1.bind (prop record "payment_url") = Normal (D1.payment_url row)
       /\ D1.bind (prop record "token") = Normal (D1.token row)
       /\ D1.bind (prop record "created_at") = Normal (D1.created_at row)
       /\ D1.block_transaction_id row = D1.SqlNull
       /\ D1.updated_at row = D1.SqlNull
       /\ D1.is_null (D1.order_id row) = false
       /\ forall r0, In r0 (records w) ->
                     D1.sql_eqb (D1.order_id r0) (D1.order_id row) = false.
Proof.
  cbv zeta. run_save. destruct (DB env); cbn; auto.
  bind_all; auto.
  destruct (d1_fails out); cbn; auto.
  destruct (D1.insert _ _) as [t'|] eqn:I; cbn; auto.
  destruct (insert_appends _ _ _ I) as (-> & Hnull & Hfresh).
  right. eexists. split; [reflexivity|]. cbn. repeat split; trivial.
Qed.

Lemma savePaymentRecord_quiet env out record w :
  exists events,
    trace (snd (savePaymentRecord env out record w)) = trace w ++ events
    /\ filter is_fetch events = [].
Proof.
  run_save. destruct (DB env); cbn.
  2:{ eexists. split; reflexivity. }
  bind_all; try (eexists; split; reflexivity).
  destruct (d1_fails out); cbn.
  { eexists. split; [rewrite <- ?app_assoc; reflexivity | reflexivity]. }
  destruct (D1.insert _ _); cbn; eexists;
    (split; [rewrite <- ?app_assoc; reflexivity | reflexivity]).
Qed.

Lemma StrictEquals_number (v : value) (n : Z) :
  StrictEquals v (JNumber n) = true -> v = JNumber n.
Proof.
  destruct v; cbn; try discriminate. intros H.
  apply Z.eqb_eq in H. now subst.
Qed.

Lemma payload_verifies (payParams : object) (token : value) (d : string) :
  wf payParams -> ~ In "signature" (keys payParams) ->
  generateSignature payParams token = Normal d ->
  verifySignature (payParams ++ [("signature", JString d)]) token (JString d)
  = Normal true.
Proof.
  intros Hwf Hk Hd.
  assert (Hwf' : wf (payParams ++ [("signature", JString d)])).
  { unfold wf, keys in *. rewrite map_app. cbn.
    apply NoDup_app; trivial.
    - repeat constructor. now intros [].
    - intros x Hx [<-|[]]. contradiction. }
  assert (E : generateSignature (payParams ++ [("signature", JString d)]) token
              = Normal d).
  { rewrite <- Hd. unfold generateSignature.
    rewrite (signed_parts _ Hwf'), (signed_parts _ Hwf), filter_app.
    cbn [filter]. now rewrite app_nil_r. }
  unfold verifySignature. rewrite E. cbn [cbind].
  now rewrite (generateSignature_lower _ _ _ Hd), String.eqb_refl.
Qed.

Lemma stringified_parsed :
  forall v, Wire.parsed v = true -> Wire.stringified v = v.
Proof.
  fix IH 1. intros [ | | b | n | s | elems | props]; cbn; trivial.
  - intros H. f_equal.
    induction elems as [|x rest IHl]; trivial.
    apply andb_true_iff in H. destruct H as [Hx Hr].
    rewrite (IHl Hr). f_equal.
    pose proof (IH x Hx) as Ex.
    destruct x; trivial; discriminate.
  - intros H. f_equal.
    induction props as [|[k x] rest IHl]; trivial.
    apply andb_true_iff in H. destruct H as [Hx Hr].
    rewrite (IHl Hr).
    pose proof (IH x Hx) as Ex.
    destruct x; try discriminate; now rewrite ?Ex.
Qed.

Lemma parsed_prop (props : object) (k : string) :
  Wire.parsed (JObject props) = true ->
  prop props k = JUndefined \/ Wire.parsed (prop props k) = true.
Proof.
  induction props as [|[k' x] rest IH]; cbn; auto.
  intros H. apply andb_true_iff in H. destruct H as [Hx Hr].
  destruct (String.eqb k' k); auto.
Qed.

Lemma parsed_Get (body x : value) (k : string) :
  Wire.parsed body = true -> Get body k = Normal x ->
  x = JUndefined \/ Wire.parsed x = true.
Proof.
  destruct body; cbn; try discriminate; intros H E; inversion E; auto.
  subst. now apply parsed_prop.
Qed.

Lemma parsed_truthy (body x : value) (k : string) :
  Wire.parsed body = true -> Get body k = Normal x -> truthy x = true ->
  Wire.parsed x = true.
Proof.
  intros H E T. destruct (parsed_Get _ _ _ H E) as [->|]; easy.
Qed.

Lemma parsed_or_else (body x : value) (k s : string) :
  Wire.parsed body = true -> Get body k = Normal x ->
  Wire.parsed (or_else x (JString s)) = true.
Proof.
  intros H E. unfold or_else. destruct (truthy x) eqn:T; trivial.
  now apply (parsed_truthy body x k).
Qed.

Section Handler.

Variable parseFloat : value -> Completion value.

#[local] Opaque generateSignature verifySignature savePaymentRecord
  ToString or_else Wire.stringified.

Ltac run_create :=
  unfold handleCreatePayment, try_catch, bind, lift, console_error, emit,
    ret, fetch, failure.

(** One step of the run: the next thing the handler looks at. *)
Ltac step :=
  match goal with
  | |- context [match Get ?b _ with Normal _ => _ | Throw _ => _ end] =>
      let Hg := fresh "Hg" in
      let o := fresh "o" in
      destruct (Get_cases b) as [Hg|[o Hg]]; rewrite ?Hg
  | |- context [match ?c with Normal _ => _ | Throw _ => _ end] =>
      destruct c eqn:?
  | |- context [if ?b then _ else _] => destruct b eqn:?
  end; cbn.

Ltac save_step :=
  match goal with
  | |- context [savePaymentRecord ?e ?o ?r ?w0] =>
      let Hn := fresh "Hn" in
      let Hr := fresh "Hr" in
      let Hq := fresh "Hq" in
      pose proof (savePaymentRecord_normal e o r w0) as Hn;
      pose proof (savePaymentRecord_records e o r w0) as Hr;
      pose proof (savePaymentRecord_quiet e o r w0) as Hq;
      destruct (savePaymentRecord e o r w0) as [? ?];
      cbn in Hn, Hr, Hq; subst
  end; cbn.

Lemma create_run request env out w :
  let run := handleCreatePayment parseFloat request env out w in
  exists r,
    fst run = Normal r
    /\ In (status r) [200; 400; 500]
    /\ (records (snd run) = records w
        \/ status r = 200
           /\ exists row,
                records (snd run) = records w ++ [row]
                /\ D1.status row = D1.SqlInteger 1
                /\ D1.created_at row = D1.SqlInteger (now out)
                /\ D1.block_transaction_id row = D1.SqlNull
                /\ D1.updated_at row = D1.SqlNull
                /\ D1.is_null (D1.order_id row) = false
                /\ forall r0, In r0 (records w) ->
                     D1.sql_eqb (D1.order_id r0) (D1.order_id row) = false).
Proof.
  cbv zeta. run_create.
  repeat step;
    try save_step;
    (eexists; split; [reflexivity|]; split; [cbn; auto|]); cbn; auto.
  destruct Hr as [Hr|(row & Hr & _ & _ & _ & _ & _ & _ & Hs & _ & _ & Hc
                      & Hb & Hu & Hn & Hf)]; auto.
  right. split; trivial. exists row. cbn in Hs, Hc.
  inversion Hs. inversion Hc. repeat split; auto.
Qed.

(** [handleCreatePayment] does not throw: it answers 200, 400 or 500.
    It leaves the stored rows as they were, or, and then the answer is
    200, it has appended one row: an order that was not stored, in
    status 1, created at the time of the run, with no transaction and no
    update time.  It changes and deletes no row. *)
Theorem create_effect request env out w :
  let run := handleCreatePayment parseFloat request env out w in
  exists r,
    fst run = Normal r
    /\ In (status r) [200; 400; 500]
    /\ (records (snd run) = records w
        \/ status r = 200
           /\ exists row,
                records (snd run) = records w ++ [row]
                /\ D1.status row = D1.SqlInteger 1
                /\ D1.created_at row = D1.SqlInteger (now out)
                /\ D1.block_transaction_id row = D1.SqlNull
                /\ D1.updated_at row = D1.SqlNull
                /\ D1.is_null (D1.order_id row) = false
                /\ forall r0, In r0 (records w) ->
                     D1.sql_eqb (D1.order_id r0) (D1.order_id row) = false).
Proof. exact (create_run request env out w). Qed.

(** The answer of [handleCreatePayment] does not depend on the store:
    with the D1 binding there or not, statements failing or not, any
    clock and any stored rows, the response is the same. *)
Theorem create_response_ignores_store request env out w db' now' fails' w' :
  fst (handleCreatePayment parseFloat request
         (mkEnv db' (BEPUSDT_API_URL env) (BEPUSDT_API_TOKEN env)
                (MANAGER_NOTIFY_URL env) (REDIRECT_BASE_URL env))
         (mkOutside now' fails' (fetch_reply out)) w')
  = fst (handleCreatePayment parseFloat request env out w).
Proof.
  run_create. cbn. repeat step; repeat save_step; reflexivity.
Qed.

Ltac quiet :=
  repeat match goal with
         | H : exists events, _ |- _ =>
             let Ht := fresh "Ht" in
             let Hf := fresh "Hf" in
             destruct H as (? & Ht & Hf); cbn in Ht; rewrite ?Ht
         end.

(** [handleCreatePayment] sends at most one request: to
    [/api/v1/order/create-transaction] under [BEPUSDT_API_URL].  When
    the body is as [JSON.parse] gives it and [parseFloat(amount)] is a
    number of the model, the object it hands to [JSON.stringify] is
    written as it is, every property with its value, and the
    [signature] it carries is one that [verifySignature] accepts for
    that object under [BEPUSDT_API_TOKEN]. *)
Theorem create_request_signed request env out w :
  (forall body, json request = Normal body -> Wire.parsed body = true) ->
  (forall body amount p,
      json request = Normal body -> Get body "amount" = Normal amount ->
      parseFloat amount = Normal p -> exists n, p = JNumber n) ->
  exists events,
    trace (snd (handleCreatePayment parseFloat request env out w))
    = trace w ++ events
    /\ (filter is_fetch events = []
        \/ exists api payload signature,
             filter is_fetch events
             = [Fetch (JString (api ++ "/api/v1/order/create-transaction"))
                      (JObject payload)]
             /\ ToString (BEPUSDT_API_URL env) = Normal api
             /\ Wire.stringified (JObject payload) = JObject payload
             /\ prop payload "signature" = JString signature
             /\ verifySignature payload (BEPUSDT_API_TOKEN env)
                  (JString signature) = Normal true).
Proof.
  intros Hjson Hnum. run_create.
  repeat step; try save_step; quiet;
    (eexists; split;
     [first [rewrite <- ?app_assoc; reflexivity | symmetry; apply app_nil_r]|]);
    cbn; rewrite ?filter_app; cbn;
    first
      [ left; reflexivity
      | right; do 3 eexists;
        (split; [rewrite ?Hf; reflexivity|]);
        (split; [first [eassumption | reflexivity]|]);
        (split;
         [ match goal with
           | Hg : forall k, Get ?b k = Normal (prop ?o k),
             Hp : parseFloat (prop ?o "amount") = Normal ?p,
             Ht : negb (truthy (prop ?o "order_id")) || _ = false |- _ =>
               pose proof (Hjson _ eq_refl) as Hb;
               destruct (Hnum _ _ _ eq_refl (Hg "amount") Hp) as [? ->];
               apply orb_false_iff in Ht; destruct Ht as [Ht _];
               apply negb_false_iff in Ht;
               apply stringified_parsed; cbn [Wire.parsed];
               rewrite (parsed_truthy b _ "order_id" Hb (Hg "order_id") Ht),
                 (parsed_or_else b _ "trade_type" "usdt.trc20" Hb
                    (Hg "trade_type"));
               reflexivity
           end |]);
        (split; [reflexivity|]);
        match goal with
        | |- verifySignature (?x1 :: ?x2 :: ?x3 :: ?x4 :: ?x5 :: _) ?t _ = _ =>
            apply (payload_verifies [x1; x2; x3; x4; x5] t); trivial;
            [ unfold wf; cbn;
              repeat (constructor; [cbn; intuition discriminate|]);
              constructor
            | cbn; intuition discriminate ]
        end ].
Qed.

(** With [BEPUSDT_API_URL] or [BEPUSDT_API_TOKEN] unset, a request that
    names its order and amount is answered 500 ['支付通道未配置'], and
    nothing else has happened. *)
Theorem create_unconfigured request env out w o :
  json request = Normal (JObject o) ->
  truthy (prop o "order_id") = true -> truthy (prop o "amount") = true ->
  truthy (BEPUSDT_API_URL env) = false
  \/ truthy (BEPUSDT_API_TOKEN env) = false ->
  handleCreatePayment parseFloat request env out w
  = (Normal (failure (JString "支付通道未配置") 500), w).
Proof.
  intros Hj H1 H2 H.
  assert (F : negb (truthy (BEPUSDT_API_URL env))
              || negb (truthy (BEPUSDT_API_TOKEN env)) = true).
  { apply orb_true_iff. destruct H as [H|H]; rewrite H; auto. }
  run_create. rewrite Hj. cbn. now rewrite H1, H2, F.
Qed.

(** Any body that can be destructured and whose [order_id] or [amount]
    is falsy (absent, empty, but also [null], [0] or [false]) is
    answered 400, and nothing else has happened. *)
Theorem create_rejects_falsy request env out w body order_id amount :
  json request = Normal body ->
  Get body "order_id" = Normal order_id ->
  Get body "amount" = Normal amount ->
  truthy order_id = false \/ truthy amount = false ->
  handleCreatePayment parseFloat request env out w
  = (Normal (failure (JString "缺少必要参数") 400), w).
Proof.
  intros Hj H1 H2 H.
  assert (F : negb (truthy order_id) || negb (truthy amount) = true).
  { apply orb_true_iff. destruct H as [H|H]; rewrite H; auto. }
  run_create. rewrite Hj. cbn.
  destruct (Get_cases body) as [Hg|[o Hg]]; [rewrite Hg in H1; discriminate|].
  rewrite Hg in H1, H2. inversion H1. inversion H2. subst.
  rewrite !Hg. cbn. now rewrite F.
Qed.

(** A 200 answer means that the gateway was reached and answered
    [status_code] 200 with data, and the answer relays that data
    field by field. *)
Theorem create_success_relays_gateway request env out w r :
  fst (handleCreatePayment parseFloat request env out w) = Normal r ->
  status r = 200 ->
  exists result data,
    fetch_reply out = Normal (Normal result)
    /\ Get result "status_code" = Normal (JNumber 200)
    /\ Get result "data" = Normal data
    /\ (exists d, (forall k, Get data k = Normal (prop d k))
    /\ r = mkResponse
             (Json (JObject
                      [("success", JBoolean true);
                       ("data",
                        JObject
                          [("trade_id", prop d "trade_id");
                           ("order_id", prop d "order_id");
                           ("amount", prop d "amount");
                           ("actual_amount", prop d "actual_amount");
                           ("token", prop d "token");
                           ("payment_url", prop d "payment_url");
                           ("expiration_time", prop d "expiration_time")])]))
             200 corsHeaders).
Proof.
  run_create.
  repeat step; try save_step; cbn; intros E S; inversion E; subst;
    cbn in S; try discriminate.
  match goal with
  | H : StrictEquals _ (JNumber 200) = true |- _ =>
      apply StrictEquals_number in H; rename H into Hc
  end.
  eexists _, _. split; [reflexivity|]. rewrite !Hg0, Hc.
  split; [reflexivity|]. split; [reflexivity|].
  eexists. split; [eassumption | reflexivity].
Qed.

End Handler.

(** Order A2 is created: the gateway accepts it, the row is stored in
    status 1, and the answer relays the gateway's data. *)
Lemma create_effect_witness :
  records (snd (handleCreatePayment Checkout.parseFloat Checkout.order
                  Scenario.env
                  (Checkout.gateway (Normal (Normal Checkout.accepted)) false)
                  (Scenario.world 2)))
  = [Scenario.row 2;
     D1.mkRecord (D1.SqlText "A2") (D1.SqlText "T2") (D1.SqlInteger 25)
       (D1.SqlText "25.01") (D1.SqlText "usdt.trc20") (D1.SqlText "u7")
       (D1.SqlInteger 1) (D1.SqlText "https://pay.example/pay/T2")
       (D1.SqlText "TXYZ") D1.SqlNull (D1.SqlInteger 1000) D1.SqlNull]
  /\ exists r,
       fst (handleCreatePayment Checkout.parseFloat Checkout.order
              Scenario.env
              (Checkout.gateway (Normal (Normal Checkout.accepted)) false)
              (Scenario.world 2)) = Normal r
       /\ In (status r) [200; 400; 500].
Proof.
  split; [vm_compute; reflexivity|].
  destruct (create_effect Checkout.parseFloat Checkout.order Scenario.env
              (Checkout.gateway (Normal (Normal Checkout.accepted)) false)
              (Scenario.world 2)) as (r & Hr & Hs & _).
  exists r. split; assumption.
Defined.

(** The gateway refuses order A2: the answer is 400 with the gateway's
    message, with the store down as with the store up. *)
Lemma create_response_ignores_store_witness :
  fst (handleCreatePayment Checkout.parseFloat Checkout.order Scenario.env
         (Checkout.gateway (Normal (Normal Checkout.refused)) false)
         (Scenario.world 2))
  = Normal (mkResponse
              (Json (JObject [("success", JBoolean false);
                              ("error", JString "order exists")]))
              400 corsHeaders)
  /\ fst (handleCreatePayment Checkout.parseFloat Checkout.order
            (mkEnv false (BEPUSDT_API_URL Scenario.env)
                   (BEPUSDT_API_TOKEN Scenario.env)
                   (MANAGER_NOTIFY_URL Scenario.env)
                   (REDIRECT_BASE_URL Scenario.env))
            (mkOutside 2000 true
               (fetch_reply
                  (Checkout.gateway (Normal (Normal Checkout.refused)) false)))
            (mkWorld [] []))
     = fst (handleCreatePayment Checkout.parseFloat Checkout.order
              Scenario.env
              (Checkout.gateway (Normal (Normal Checkout.refused)) false)
              (Scenario.world 2)).
Proof.
  split; [vm_compute; reflexivity|].
  apply (create_response_ignores_store Checkout.parseFloat Checkout.order
           Scenario.env
           (Checkout.gateway (Normal (Normal Checkout.refused)) false)
           (Scenario.world 2) false 2000 true (mkWorld [] [])).
Defined.

Lemma create_request_signed_witness :
  exists events,
    trace (snd (handleCreatePayment Checkout.parseFloat Checkout.order
                  Scenario.env
                  (Checkout.gateway (Normal (Normal Checkout.refused)) false)
                  (Scenario.world 2)))
    = [] ++ events
    /\ (filter is_fetch events = []
        \/ exists api payload signature,
             filter is_fetch events
             = [Fetch (JString (api ++ "/api/v1/order/create-transaction"))
                      (JObject payload)]
             /\ ToString (BEPUSDT_API_URL Scenario.env) = Normal api
             /\ Wire.stringified (JObject payload) = JObject payload
             /\ prop payload "signature" = JString signature
             /\ verifySignature payload (BEPUSDT_API_TOKEN Scenario.env)
                  (JString signature) = Normal true).
Proof.
  apply (create_request_signed Checkout.parseFloat Checkout.order
           Scenario.env
           (Checkout.gateway (Normal (Normal Checkout.refused)) false)
           (Scenario.world 2)).
  - intros body E. inversion E. reflexivity.
  - intros body amount p E. inversion E. subst body. cbn.
    intros E1 E2. inversion E1. subst amount. inversion E2. eauto.
Defined.

Lemma create_unconfigured_witness :
  handleCreatePayment Checkout.parseFloat Checkout.order
    (mkEnv true (JString "https://pay.example") JUndefined JUndefined
           JUndefined)
    (Checkout.gateway (Normal (Normal Checkout.accepted)) false)
    (Scenario.world 2)
  = (Normal (mkResponse
               (Json (JObject [("success", JBoolean false);
                               ("error", JString "支付通道未配置")]))
               500 corsHeaders),
     Scenario.world 2).
Proof.
  apply (create_unconfigured Checkout.parseFloat Checkout.order _ _ _
           [("order_id", JString "A2"); ("amount", JNumber 25);
            ("user_id", JString "u7")]); try reflexivity.
  right. reflexivity.
Defined.

Lemma create_rejects_falsy_witness :
  handleCreatePayment Checkout.parseFloat
    (Scenario.post (JObject [("order_id", JString "A2");
                             ("amount", JNumber 0)]))
    Scenario.env
    (Checkout.gateway (Normal (Normal Checkout.accepted)) false)
    (Scenario.world 2)
  = (Normal (mkResponse
               (Json (JObject [("success", JBoolean false);
                               ("error", JString "缺少必要参数")]))
               400 corsHeaders),
     Scenario.world 2).
Proof.
  apply (create_rejects_falsy Checkout.parseFloat _ _ _ _
           (JObject [("order_id", JString "A2"); ("amount", JNumber 0)])
           (JString "A2") (JNumber 0)); try reflexivity.
  right. reflexivity.
Defined.

Lemma create_success_relays_gateway_witness :
  fst (handleCreatePayment Checkout.parseFloat Checkout.order Scenario.env
         (Checkout.gateway (Normal (Normal Checkout.accepted)) true)
         (Scenario.world 2))
  = Normal (mkResponse
              (Json (JObject
                       [("success", JBoolean true);
                        ("data",
                         JObject
                           [("trade_id", JString "T2");
                            ("order_id", JString "A2");
                            ("amount", JNumber 25);
                            ("actual_amount", JString "25.01");
                            ("token", JString "TXYZ");
                            ("payment_url",
                             JString "https://pay.example/pay/T2");
                            ("expiration_time", JNumber 600)])]))
              200 corsHeaders)
  /\ exists result data,
       fetch_reply (Checkout.gateway (Normal (Normal Checkout.accepted)) true)
       = Normal (Normal result)
       /\ Get result "status_code" = Normal (JNumber 200)
       /\ Get result "data" = Normal data.
Proof.
  assert (H : fst (handleCreatePayment Checkout.parseFloat Checkout.order
                     Scenario.env
                     (Checkout.gateway (Normal (Normal Checkout.accepted)) true)
                     (Scenario.world 2))
              = Normal (mkResponse
                          (Json (JObject
                             [("success", JBoolean true);
                              ("data",
                               JObject
                                 [("trade_id", JString "T2");
                                  ("order_id", JString "A2");
                                  ("amount", JNumber 25);
                                  ("actual_amount", JString "25.01");
                                  ("token", JString "TXYZ");
                                  ("payment_url",
                                   JString "https://pay.example/pay/T2");
                                  ("expiration_time", JNumber 600)])]))
                          200 corsHeaders))
    by (vm_compute; reflexivity).
  split; [exact H|].
  destruct (create_success_relays_gateway _ _ _ _ _ _ H eq_refl)
    as (result & data & H1 & H2 & H3 & _).
  exists result, data. repeat split; assumption.
Defined.

End CreateFacts.

(* ================================================================== *)
(** * More on the status query                                         *)
(* ================================================================== *)

Module QueryFacts.
Import Js Worker D1Facts WorkerFacts.

Ltac run_query :=
  unfold handleQueryStatus, getPaymentRecordByTradeId, try_catch, bind,
    prepare, lift, emit, throw, ret.

Lemma query_run tradeId env out w :
  let run := handleQueryStatus tradeId env out w in
  records (snd run) = records w
  /\ filter is_fetch (trace (snd run)) = filter is_fetch (trace w)
  /\ exists r, fst run = Normal r /\ (r = not_found \/ status r = 200).
Proof.
  cbv zeta. run_query.
  destruct (DB env); cbn.
  - destruct (d1_fails out); cbn.
    + rewrite filter_app, app_nil_r. eauto 6.
    + unfold D1.first. destruct (find _ _); cbn;
        rewrite filter_app, app_nil_r; eauto 6.
  - eauto 6.
Qed.

(** [handleQueryStatus] only reads: the stored rows are the same after
    it and it sends no request.  It does not throw, and it answers
    either 404 ['订单不存在'] or 200: never 500. *)
Theorem query_reads_only tradeId env out w :
  let run := handleQueryStatus tradeId env out w in
  records (snd run) = records w
  /\ filter is_fetch (trace (snd run)) = filter is_fetch (trace w)
  /\ exists r, fst run = Normal r /\ (r = not_found \/ status r = 200).
Proof. exact (query_run tradeId env out w). Qed.

(** When the lookup works, the answer for a stored [trade_id] is 200
    with six columns of the first row that has it. *)
Theorem query_found tradeId env out w row :
  DB env = true -> d1_fails out = false ->
  find (fun r => D1.sql_eqb (D1.trade_id r) (D1.SqlText tradeId)) (records w)
  = Some row ->
  fst (handleQueryStatus tradeId env out w)
  = Normal (mkResponse
              (Json (JObject
                       [("success", JBoolean true);
                        ("data",
                         JObject
                           [("order_id", D1.unbind (D1.order_id row));
                            ("trade_id", D1.unbind (D1.trade_id row));
                            ("status", D1.unbind (D1.status row));
                            ("amount", D1.unbind (D1.amount row));
                            ("actual_amount",
                             D1.unbind (D1.actual_amount row));
                            ("payment_url",
                             D1.unbind (D1.payment_url row))])]))
              200 corsHeaders).
Proof.
  intros HDB Hf Hrow. run_query. rewrite HDB, Hf. cbn.
  unfold D1.first. rewrite Hrow. reflexivity.
Qed.

Lemma query_found_witness :
  fst (handleQueryStatus "T1" Scenario.env (Scenario.at_time 1000)
         (Scenario.world 2))
  = Normal (mkResponse
              (Json (JObject
                       [("success", JBoolean true);
                        ("data",
                         JObject
                           [("order_id", JString "A1");
                            ("trade_id", JString "T1");
                            ("status", JNumber 2);
                            ("amount", JNumber 10);
                            ("actual_amount", JString "10.00");
                            ("payment_url",
                             JString "https://pay.example/T1")])]))
              200 corsHeaders).
Proof.
  exact (query_found "T1" Scenario.env (Scenario.at_time 1000)
           (Scenario.world 2) (Scenario.row 2) eq_refl eq_refl eq_refl).
Defined.

End QueryFacts.

(* ================================================================== *)
(** * More on the store                                                *)
(* ================================================================== *)

Module StoreFacts.
Import Js Worker D1Facts WorkerFacts CallbackFacts CreateFacts QueryFacts Shape.

Lemma unbind_bind (v : value) (x : D1.sql) :
  D1.bind v = Normal x -> D1.unbind x = stored_form v.
Proof. destruct v; cbn; intros H; inversion H; reflexivity. Qed.

Lemma find_app_fresh {A} (f : A -> bool) (l : list A) (x : A) :
  (forall y, In y l -> f y = false) -> f x = true ->
  find f (l ++ [x]) = Some x.
Proof.
  induction l as [|y l IH]; cbn; intros H Hx.
  - now rewrite Hx.
  - rewrite (H y) by auto. apply IH; auto.
Qed.

Lemma stored_form_text (v : value) : text v = true -> stored_form v = v.
Proof. destruct v; cbn; trivial; discriminate. Qed.

Lemma stored_form_number (v : value) : number v = true -> stored_form v = v.
Proof. destruct v; cbn; trivial; discriminate. Qed.

(** What [savePaymentRecord] stores, [getPaymentRecordByTradeId] gives
    back, for a record whose fields have the types of their columns
    (strings or [null] for the [TEXT] columns, numbers for [amount],
    [status] and [created_at]): when the save has changed the table and
    no older row has the [trade_id], the lookup by that [trade_id]
    returns an object whose ten saved fields are the fields of the
    record, with no transaction and no update time. *)
Theorem save_then_get env out out' record w tradeId :
  prop record "trade_id" = JString tradeId ->
  (forall k, In k ["order_id"; "actual_amount"; "trade_type"; "user_id";
                   "payment_url"; "token"] ->
             text (prop record k) = true) ->
  (forall k, In k ["amount"; "status"; "created_at"] ->
             number (prop record k) = true) ->
  d1_fails out' = false ->
  (forall r, In r (records w) ->
             D1.sql_eqb (D1.trade_id r) (D1.SqlText tradeId) = false) ->
  records (snd (savePaymentRecord env out record w)) <> records w ->
  exists result,
    fst (getPaymentRecordByTradeId env out' (JString tradeId)
           (snd (savePaymentRecord env out record w)))
    = Normal result
    /\ (forall k,
           In k ["order_id"; "trade_id"; "amount"; "actual_amount";
                 "trade_type"; "user_id"; "status"; "payment_url"; "token";
                 "created_at"] ->
           Get result k = Normal (prop record k))
    /\ Get result "block_transaction_id" = Normal JNull
    /\ Get result "updated_at" = Normal JNull.
Proof.
  intros Ht Htext Hnumber Hf Hfresh Hchanged.
  assert (HDB : DB env = true).
  { destruct (DB env) eqn:E; trivial. exfalso. apply Hchanged.
    run_save. now rewrite E. }
  destruct (savePaymentRecord_records env out record w)
    as [Hr|(row & Hr & H1 & H2 & H3 & H4 & H5 & H6 & H7 & H8 & H9 & H10
            & Hb & Hu & _ & _)]; [contradiction|].
  unfold getPaymentRecordByTradeId, try_catch, bind, prepare, lift, emit,
    throw, ret.
  rewrite HDB, Hf. cbn. rewrite Hr. unfold D1.first.
  rewrite find_app_fresh; trivial.
  2:{ rewrite Ht in H2. cbn in H2. inversion H2 as [E]. cbn.
      apply String.eqb_refl. }
  eexists. split; [reflexivity|]. cbn. rewrite Hb, Hu.
  split; [|split; reflexivity].
  assert (Hs : forall k,
             In k ["order_id"; "trade_id"; "amount"; "actual_amount";
                   "trade_type"; "user_id"; "status"; "payment_url"; "token";
                   "created_at"] ->
             stored_form (prop record k) = prop record k).
  { intros k Hk. cbn in Hk.
    destruct Hk as [<-|[<-|[<-|[<-|[<-|[<-|[<-|[<-|[<-|[<-|[]]]]]]]]]]];
      first [ apply stored_form_text, Htext; cbn; tauto
            | apply stored_form_number, Hnumber; cbn; tauto
            | now rewrite Ht ]. }
  intros k Hk. rewrite <- (Hs k Hk).
  repeat (destruct Hk as [<-|Hk];
          [cbn; f_equal; now apply unbind_bind|]).
  destruct Hk.
Qed.

Lemma save_then_get_witness :
  exists result,
    fst (getPaymentRecordByTradeId Scenario.env (Scenario.at_time 2000)
           (JString "T9")
           (snd (savePaymentRecord Scenario.env (Scenario.at_time 1000)
                   [("order_id", JString "A9"); ("trade_id", JString "T9");
                    ("amount", JNumber 5); ("actual_amount", JNull);
                    ("trade_type", JString "usdt.trc20");
                    ("user_id", JString ""); ("status", JNumber 1);
                    ("payment_url", JString "https://pay.example/T9");
                    ("token", JString "TXYZ");
                    ("created_at", JNumber 1000)]
                   (Scenario.world 1))))
    = Normal result
    /\ Get result "amount" = Normal (JNumber 5)
    /\ Get result "updated_at" = Normal JNull.
Proof.
  destruct (save_then_get Scenario.env (Scenario.at_time 1000)
              (Scenario.at_time 2000)
              [("order_id", JString "A9"); ("trade_id", JString "T9");
               ("amount", JNumber 5); ("actual_amount", JNull);
               ("trade_type", JString "usdt.trc20");
               ("user_id", JString ""); ("status", JNumber 1);
               ("payment_url", JString "https://pay.example/T9");
               ("token", JString "TXYZ");
               ("created_at", JNumber 1000)]
              (Scenario.world 1) "T9" eq_refl)
    as (result & Hr & Hk & _ & Hu).
  - cbn. intros k [<-|[<-|[<-|[<-|[<-|[<-|[]]]]]]]; reflexivity.
  - cbn. intros k [<-|[<-|[<-|[]]]]; reflexivity.
  - reflexivity.
  - intros r [<-|[]]. reflexivity.
  - vm_compute. discriminate.
  - exists result. split; [exact Hr|]. split; [|exact Hu].
    apply (Hk "amount"). cbn. tauto.
Defined.

Lemma sql_eqb_same (x : D1.sql) :
  D1.is_null x = false -> D1.sql_eqb x x = true.
Proof.
  destruct x; cbn; intros H; try discriminate.
  - apply Z.eqb_refl.
  - apply String.eqb_refl.
Qed.

Lemma rows_order_ids (t t' : D1.table) :
  Forall2 (fun r r' =>
             D1.order_id r' = D1.order_id r
             /\ D1.trade_id r' = D1.trade_id r
             /\ D1.amount r' = D1.amount r
             /\ D1.trade_type r' = D1.trade_type r
             /\ D1.user_id r' = D1.user_id r
             /\ D1.payment_url r' = D1.payment_url r
             /\ D1.token r' = D1.token r
             /\ D1.created_at r' = D1.created_at r) t t' ->
  map D1.order_id t' = map D1.order_id t.
Proof.
  induction 1 as [|r r' t t' (E & _) _ IH]; cbn; trivial.
  now rewrite E, IH.
Qed.

(** No handler breaks the uniqueness of [order_id]: if the stored rows
    have pairwise different [order_id]s before a run of
    [handleCreatePayment], [handlePaymentNotify] or [handleQueryStatus],
    they have after it. *)
Theorem handlers_keep_order_ids_unique
        (parseFloat : value -> Completion value) request tradeId env out w :
  NoDup (map D1.order_id (records w)) ->
  NoDup (map D1.order_id
           (records (snd (handleCreatePayment parseFloat request env out w))))
  /\ NoDup (map D1.order_id
              (records (snd (handlePaymentNotify request env out w))))
  /\ NoDup (map D1.order_id
              (records (snd (handleQueryStatus tradeId env out w)))).
Proof.
  intros Hnd. split; [|split].
  - destruct (create_run parseFloat request env out w)
      as (r & _ & _ & [->|(_ & row & -> & _ & _ & _ & _ & Hn & Hf)]);
      trivial.
    rewrite map_app. cbn. apply NoDup_app; trivial.
    + repeat constructor. now intros [].
    + intros x Hx [<-|[]].
      apply in_map_iff in Hx. destruct Hx as (r0 & E & Hin).
      specialize (Hf r0 Hin). rewrite E, sql_eqb_same in Hf; trivial.
      discriminate.
  - now rewrite (rows_order_ids _ _ (notify_rows request env out w)).
  - now rewrite (proj1 (query_run tradeId env out w)).
Qed.

Lemma handlers_keep_order_ids_unique_witness :
  NoDup (map D1.order_id
           (records (snd (handleCreatePayment Checkout.parseFloat
                            Checkout.order Scenario.env
                            (Checkout.gateway
                               (Normal (Normal Checkout.accepted)) false)
                            (Scenario.world 2))))).
Proof.
  refine (proj1 (handlers_keep_order_ids_unique Checkout.parseFloat
                   Checkout.order "T1" Scenario.env
                   (Checkout.gateway (Normal (Normal Checkout.accepted)) false)
                   (Scenario.world 2) _)).
  cbn. repeat constructor. now intros [].
Defined.

End StoreFacts.

(* ================================================================== *)
(** * The router                                                       *)
(* ================================================================== *)

Module EntryFacts.
Import Js Worker Entry WorkerFacts CreateFacts QueryFacts Shape.

Lemma split_not_empty (sep : ascii) (s : string) : split sep s <> [].
Proof.
  destruct s as [|c s]; cbn; [discriminate|].
  destruct (Ascii.eqb c sep); [discriminate|].
  destruct (split sep s); discriminate.
Qed.

Lemma split_app (sep : ascii) (s t : string) :
  split sep (s ++ String sep t) = split sep s ++ split sep t.
Proof.
  induction s as [|c s IH]; cbn.
  - now rewrite Ascii.eqb_refl.
  - rewrite IH. destruct (Ascii.eqb c sep); trivial.
    pose proof (split_not_empty sep s) as H.
    destruct (split sep s); [contradiction|reflexivity].
Qed.

Lemma split_one (sep : ascii) (t : string) :
  all_chars (fun c => negb (Ascii.eqb c sep)) t = true -> split sep t = [t].
Proof.
  induction t as [|c t IH]; cbn; trivial.
  destruct (Ascii.eqb c sep); cbn; [discriminate|].
  intros H. now rewrite IH.
Qed.

Lemma pop_app (l l' : list string) : l' <> [] -> pop (l ++ l') = pop l'.
Proof.
  unfold pop. intros H. induction l as [|x l IH]; cbn; trivial.
  destruct (l ++ l') eqn:E; trivial.
  apply app_eq_nil in E. destruct E. contradiction.
Qed.

Lemma pop_last_segment (s t : string) :
  all_chars (fun c => negb (Ascii.eqb c "/")) t = true ->
  pop (split "/" (s ++ String "/" t)) = t.
Proof.
  intros H. rewrite split_app, pop_app by apply split_not_empty.
  now rewrite split_one.
Qed.

Lemma full_run (m : M Response) (w : World) :
  snd (full m w) = snd (m w)
  /\ forall r, fst (m w) = Normal r -> fst (full m w) = Normal (Full r).
Proof.
  unfold full, bind, ret. destruct (m w) as [[r|e] w']; cbn; split; trivial.
  - intros r' E. now inversion E.
  - discriminate.
Qed.

Section Router.

Variable parseFloat : value -> Completion value.
Variable parse_url : string -> option string.

(** A [GET] of a path under [/api/pay/status/] is a status query for
    the last segment of the path, the text after its last [/]. *)
Theorem status_route call env out prefix tradeId :
  method call = "GET" ->
  pathname call = (prefix ++ String "/" tradeId)%string ->
  startsWith (pathname call) "/api/pay/status/" = true ->
  all_chars (fun c => negb (Ascii.eqb c "/")) tradeId = true ->
  fetch parseFloat parse_url call env out
  = full (handleQueryStatus tradeId env out).
Proof.
  intros Hm Hp Hs Hid. unfold fetch, get_routes. rewrite Hm. cbn.
  rewrite Hs, Hp, pop_last_segment; trivial.
Qed.

(** A request whose method is not [POST] leaves the stored rows as
    they were and sends no request. *)
Theorem only_post_writes call env out w :
  method call <> "POST" ->
  let run := fetch parseFloat parse_url call env out w in
  records (snd run) = records w
  /\ filter is_fetch (trace (snd run)) = filter is_fetch (trace w).
Proof.
  intros Hm. cbv zeta. unfold fetch, get_routes.
  destruct (String.eqb (method call) "OPTIONS"); [split; reflexivity|].
  destruct (String.eqb_spec (method call) "POST") as [E|_]; [contradiction|].
  destruct (String.eqb (method call) "GET"); [|split; reflexivity].
  destruct (startsWith _ _).
  - rewrite (proj1 (full_run _ _)).
    destruct (query_run (pop (split "/" (pathname call))) env out w)
      as (Hr & Ht & _).
    now split.
  - destruct (String.eqb _ _); split; reflexivity.
Qed.

(** Off the return route the router does not throw: every request but
    a [GET] of [/api/pay/return] gets a reply. *)
Theorem fetch_replies call env out w :
  ~ (method call = "GET" /\ pathname call = "/api/pay/return") ->
  exists reply,
    fst (fetch parseFloat parse_url call env out w) = Normal reply.
Proof.
  intros Hn. unfold fetch, post_routes, get_routes.
  destruct (String.eqb (method call) "OPTIONS"); [cbn; eauto|].
  destruct (String.eqb (method call) "POST").
  - destruct (String.eqb (pathname call) "/api/pay/create").
    + destruct (create_run parseFloat (request call) env out w)
        as (r & Hr & _).
      eexists. apply (proj2 (full_run _ _)). exact Hr.
    + destruct (String.eqb (pathname call) "/api/pay/notify").
      * eexists. apply (proj2 (full_run _ _)). apply notify_response.
      * destruct (String.eqb_spec (method call) "GET") as [E|_].
        2:{ cbn; eauto. }
        destruct (startsWith _ _).
        { destruct (query_run (pop (split "/" (pathname call))) env out w)
            as (_ & _ & r & Hr & _).
          eexists. apply (proj2 (full_run _ _)). exact Hr. }
        destruct (String.eqb_spec (pathname call) "/api/pay/return");
          [tauto | cbn; eauto].
  - destruct (String.eqb_spec (method call) "GET") as [E|_].
    2:{ cbn; eauto. }
    destruct (startsWith _ _).
    { destruct (query_run (pop (split "/" (pathname call))) env out w)
        as (_ & _ & r & Hr & _).
      eexists. apply (proj2 (full_run _ _)). exact Hr. }
    destruct (String.eqb_spec (pathname call) "/api/pay/return");
      [tauto | cbn; eauto].
Qed.

(** The return route touches neither the store nor the log and sends
    nothing.  With [REDIRECT_BASE_URL] set to a non-empty string it
    redirects to that string followed by the query
    [?payment_success=1&order_id=] and the [order_id] parameter; with
    [REDIRECT_BASE_URL] unset the target starts with [/], and the
    router throws if the URL parser does not take such a string. *)
Theorem return_route call env out w :
  method call = "GET" ->
  pathname call = "/api/pay/return" ->
  let run := fetch parseFloat parse_url call env out w in
  snd run = w
  /\ (forall base id,
         REDIRECT_BASE_URL env = JString base -> base <> EmptyString ->
         order_id_param call = Some id ->
         fst run = redirect parse_url
                     (base ++ "?payment_success=1&order_id=" ++ id) 302)
  /\ (truthy (REDIRECT_BASE_URL env) = false ->
      (forall s, parse_url (String "/" s) = None) ->
      fst run = Throw TypeError).
Proof.
  intros Hm Hp. cbv zeta. unfold fetch, get_routes, startsWith.
  rewrite Hm, Hp. cbn. unfold handlePaymentReturn, or_else.
  split; [reflexivity|]. split.
  - intros base id Hb Hne Hid. rewrite Hb, Hid. cbn.
    destruct (String.eqb_spec base ""); [contradiction|reflexivity].
  - intros Hb Hu. rewrite Hb. cbn. unfold redirect. now rewrite Hu.
Qed.

End Router.

Lemma status_route_witness :
  fst (fetch Checkout.parseFloat Checkout.parse_url
         (Checkout.get "/api/pay/status/T1" None) Scenario.env
         (Scenario.at_time 1000) (Scenario.world 2))
  = fst (full (handleQueryStatus "T1" Scenario.env (Scenario.at_time 1000))
           (Scenario.world 2)).
Proof.
  rewrite (status_route Checkout.parseFloat Checkout.parse_url
             (Checkout.get "/api/pay/status/T1" None) Scenario.env
             (Scenario.at_time 1000) "/api/pay/status" "T1"
             eq_refl eq_refl eq_refl eq_refl).
  reflexivity.
Defined.

Lemma only_post_writes_witness :
  records (snd (fetch Checkout.parseFloat Checkout.parse_url
                  (Checkout.get "/api/pay/status/T1" None) Scenario.env
                  (Scenario.at_time 1000) (Scenario.world 2)))
  = [Scenario.row 2].
Proof.
  refine (proj1 (only_post_writes Checkout.parseFloat Checkout.parse_url
                   (Checkout.get "/api/pay/status/T1" None) Scenario.env
                   (Scenario.at_time 1000) (Scenario.world 2) _)).
  cbn. discriminate.
Defined.

Lemma fetch_replies_witness :
  exists reply,
    fst (fetch Checkout.parseFloat Checkout.parse_url
           (mkCall "POST" "/api/pay/notify" None Scenario.forged)
           Scenario.env (Scenario.at_time 1000) (Scenario.world 2))
    = Normal reply.
Proof.
  apply fetch_replies. cbn. intros [H _]. discriminate H.
Defined.

Lemma return_route_witness :
  fetch Checkout.parseFloat Checkout.parse_url
    (Checkout.get "/api/pay/return" (Some "A1")) Scenario.env
    (Scenario.at_time 1000) (Scenario.world 2)
  = (Throw TypeError, Scenario.world 2)
  /\ fst (fetch Checkout.parseFloat Checkout.parse_url
            (Checkout.get "/api/pay/return" (Some "A1"))
            (mkEnv true JUndefined JUndefined JUndefined
                   (JString "https://shop.example/paid"))
            (Scenario.at_time 1000) (Scenario.world 2))
     = Normal (Bodiless 302
                 [("Location",
                   "https://shop.example/paid?payment_success=1&order_id=A1")]).
Proof.
  split.
  - destruct (return_route Checkout.parseFloat Checkout.parse_url
                (Checkout.get "/api/pay/return" (Some "A1")) Scenario.env
                (Scenario.at_time 1000) (Scenario.world 2) eq_refl eq_refl)
      as (Hw & _ & Ht).
    rewrite (surjective_pairing (fetch _ _ _ _ _ _)), Hw, Ht; trivial.
  - destruct (return_route Checkout.parseFloat Checkout.parse_url
                (Checkout.get "/api/pay/return" (Some "A1"))
                (mkEnv true JUndefined JUndefined JUndefined
                       (JString "https://shop.example/paid"))
                (Scenario.at_time 1000) (Scenario.world 2) eq_refl eq_refl)
      as (_ & Hr & _).
    rewrite (Hr "https://shop.example/paid" "A1" eq_refl); trivial.
    discriminate.
Defined.

End EntryFacts.
